(* ===================================================================== *)
(* arke-cdn-worker: the asset resolution engine                          *)
(*                                                                       *)
(* A shallow embedding of src/utils/variants.ts, src/utils/validation.ts, *)
(* src/handlers/registration.ts and src/handlers/retrieval.ts, and the   *)
(* properties of variant resolution, default-variant computation and     *)
(* registration validation proved over it.                               *)
(*                                                                       *)
(* Conventions of the embedding                                          *)
(*  - An optional property `f?: T` is a field of type `option T`; `None` *)
(*    is JavaScript's `undefined`.  Every field holds, when present, a   *)
(*    value of the JSON type its interface declares (string, number,     *)
(*    boolean, object); the contents are unconstrained: a variant name   *)
(*    or a key of `variants` is an arbitrary string, as at run time.     *)
(*  - Numbers are pixel counts and byte counts: the integer literals of  *)
(*    the JSON text, in Z.  JavaScript computes with the nearest double; *)
(*    the comparisons with the size thresholds, the truthiness tests and *)
(*    `typeof` give the same on both, and printing goes through the      *)
(*    double (Number_toString).                                          *)
(*  - Conditions in the source test truthiness: "" and 0 and false and   *)
(*    undefined are falsy, every object is truthy (class Truthy).        *)
(*  - An object used as a map (`variants`) is the list of its own        *)
(*    properties in enumeration order (Object.entries).                  *)
(*  - The KV namespace and the R2 bucket are finite maps; a record is    *)
(*    stored as itself (JSON.stringify followed by JSON.parse gives the  *)
(*    record back, undefined properties staying absent).                 *)
(*  - The request body of a registration is taken in the shape of its    *)
(*    interface (handleRegistration) and, for what makes the handler     *)
(*    throw, as a value that may be null or hold null entries            *)
(*    (handleRegistration_any).                                          *)
(* ===================================================================== *)

From Stdlib Require Import ZArith Ascii String.
From stdpp Require Import gmap strings list fin_maps pretty.

Local Open Scope string_scope.
Local Open Scope list_scope.

(* --------------------------------------------------------------------- *)
(* JavaScript truthiness                                                 *)
(* --------------------------------------------------------------------- *)

Class Truthy (A : Type) := truthy : A → bool.

#[export] Instance truthy_string : Truthy string :=
  fun s => negb (String.eqb s "").
#[export] Instance truthy_number : Truthy Z :=
  fun n => negb (Z.eqb n 0).
#[export] Instance truthy_boolean : Truthy bool :=
  fun b => b.
#[export] Instance truthy_optional {A} `{Truthy A} : Truthy (option A) :=
  fun o => match o with Some a => truthy a | None => false end.

(* [a || b] on optional values: the left operand when it is truthy. *)
Definition js_or {A} `{Truthy A} (a : option A) (b : option A) : option A :=
  if truthy a then a else b.

(* The value of a condition that was found truthy. *)
Definition if_truthy {A} `{Truthy A} (a : option A) : option A :=
  if truthy a then a else None.

(* [a || d] where the right operand is a value that is always there. *)
Definition js_or_else {A} `{Truthy A} (a : option A) (d : A) : A :=
  match if_truthy a with Some x => x | None => d end.

(* [a <= k] for an optional number: undefined converts to NaN, and every
   comparison with NaN is false. *)
Definition js_le (a : option Z) (k : Z) : bool :=
  match a with Some n => Z.leb n k | None => false end.

(* A call that either completes with a value or throws. *)
Inductive completion (A : Type) : Type :=
  | Normal (a : A)
  | Thrown.
Arguments Normal {A} a.
Arguments Thrown {A}.

(* --------------------------------------------------------------------- *)
(* src/types.ts                                                          *)
(* --------------------------------------------------------------------- *)

(* 'thumb' | 'medium' | 'large' | 'original' for the type checker; a
   string at run time. *)
Definition VariantName : Type := string.

Module ImageVariant.
Record t : Type := mk {
  r2_key : option string;
  url : option string;
  width : option Z;
  height : option Z;
  size_bytes : option Z;
  content_type : option string
}.
End ImageVariant.

(* Every object is truthy. *)
#[export] Instance truthy_ImageVariant : Truthy ImageVariant.t :=
  fun _ => true.

(* The `variants` object: own properties in enumeration order. *)
Definition Variants : Type := list (string * ImageVariant.t).

#[export] Instance truthy_Variants : Truthy Variants :=
  fun _ => true.

(* Property access [variants[name]]. *)
Fixpoint get (vs : Variants) (name : string) : option ImageVariant.t :=
  match vs with
  | [] => None
  | (k, v) :: rest => if String.eqb k name then Some v else get rest name
  end.

(* Object.keys *)
Definition keys (vs : Variants) : list string := map fst vs.

Inductive StorageType : Type := storage_url | storage_r2.

Module AssetMetadata.
Record t : Type := mk {
  storage_type : StorageType;
  url : option string;
  r2_key : option string;
  content_type : option string;
  size_bytes : option Z;
  is_image : option bool;
  original_width : option Z;
  original_height : option Z;
  variants : option Variants;
  default_variant : option VariantName;
  created_at : option string;
  updated_at : option string
}.

(* metadata.default_variant = d *)
Definition set_default_variant (d : option VariantName) (m : t) : t :=
  mk (storage_type m) (url m) (r2_key m) (content_type m) (size_bytes m)
     (is_image m) (original_width m) (original_height m) (variants m)
     d (created_at m) (updated_at m).

Definition set_variants (vs : option Variants) (m : t) : t :=
  mk (storage_type m) (url m) (r2_key m) (content_type m) (size_bytes m)
     (is_image m) (original_width m) (original_height m) vs
     (default_variant m) (created_at m) (updated_at m).
End AssetMetadata.

(* --------------------------------------------------------------------- *)
(* src/constants.ts                                                      *)
(* --------------------------------------------------------------------- *)

Module VARIANT_SIZES.
Definition thumb : Z := 200.
Definition medium : Z := 1288.
Definition large : Z := 2400.
End VARIANT_SIZES.

Definition VARIANT_NAMES : list string :=
  ["thumb"; "medium"; "large"; "original"].

Definition DEFAULT_CONTENT_TYPE : string := "application/octet-stream".

(* --------------------------------------------------------------------- *)
(* src/utils/variants.ts                                                 *)
(* --------------------------------------------------------------------- *)

(* VARIANT_NAMES.includes(name) *)
Definition isValidVariantName (name : string) : bool :=
  existsb (String.eqb name) VARIANT_NAMES.

Definition calculateDefaultVariant (metadata : AssetMetadata.t) : VariantName :=
  match if_truthy (AssetMetadata.default_variant metadata) with
  | Some explicit => explicit
  | None =>
    match AssetMetadata.variants metadata with
    | None => "original"
    | Some variants =>
      if truthy (get variants "medium") then "medium"
      else if truthy (get variants "original")
              && truthy (AssetMetadata.original_width metadata)
              && js_le (AssetMetadata.original_width metadata) VARIANT_SIZES.medium
           then "original"
      else if truthy (get variants "large") then "large"
      else if truthy (get variants "original") then "original"
      else if truthy (get variants "thumb") then "thumb"
      else "original"
    end
  end.

(* The object literal `fallbackChains`, indexed by the requested name; a
   name that is not one of its four keys has no iterable chain. *)
Definition fallbackChains (requestedVariant : VariantName)
  : option (list VariantName) :=
  if String.eqb requestedVariant "thumb" then Some ["thumb"; "medium"; "original"]
  else if String.eqb requestedVariant "medium" then Some ["medium"; "original"]
  else if String.eqb requestedVariant "large" then Some ["large"; "medium"; "original"]
  else if String.eqb requestedVariant "original" then Some ["original"]
  else None.

(* The `for (const variantName of chain)` loop with its early return. *)
Fixpoint walk_chain (variants : Variants) (chain : list VariantName)
  : option (ImageVariant.t * VariantName) :=
  match chain with
  | [] => None
  | variantName :: rest =>
    match if_truthy (get variants variantName) with
    | Some variant => Some (variant, variantName)
    | None => walk_chain variants rest
    end
  end.

(* Returns { variant, actualVariant } or null; iterating an undefined
   chain throws a TypeError. *)
Definition getVariantToServe (metadata : AssetMetadata.t)
    (requestedVariant : VariantName)
  : completion (option (ImageVariant.t * VariantName)) :=
  match AssetMetadata.variants metadata with
  | None => Normal None
  | Some variants =>
    match fallbackChains requestedVariant with
    | Some chain => Normal (walk_chain variants chain)
    | None => Thrown
    end
  end.

Definition getVariantStorage (variant : ImageVariant.t)
  : option (StorageType * string) :=
  match if_truthy (ImageVariant.r2_key variant) with
  | Some key => Some (storage_r2, key)
  | None =>
    match if_truthy (ImageVariant.url variant) with
    | Some u => Some (storage_url, u)
    | None => None
    end
  end.

Definition hasVariants (metadata : AssetMetadata.t) : bool :=
  truthy (AssetMetadata.is_image metadata)
  && match AssetMetadata.variants metadata with
     | Some variants => Nat.ltb 0 (length (keys variants))
     | None => false
     end.

(* --------------------------------------------------------------------- *)
(* src/utils/validation.ts                                               *)
(* --------------------------------------------------------------------- *)

(* The body of a registration request, `await c.req.json()`. *)
Module RegistrationBody.
Record t : Type := mk {
  url : option string;
  r2_key : option string;
  content_type : option string;
  size_bytes : option Z;
  is_image : option bool;
  original_width : option Z;
  original_height : option Z;
  variants : option Variants;
  default_variant : option VariantName;
  created_at : option string
}.

Definition set_variants (vs : option Variants) (b : t) : t :=
  mk (url b) (r2_key b) (content_type b) (size_bytes b) (is_image b)
     (original_width b) (original_height b) vs (default_variant b)
     (created_at b).
End RegistrationBody.

(* typeof x === 'number' *)
Definition typeof_number (x : option Z) : bool :=
  match x with Some _ => true | None => false end.

(* validateVariant on an entry that is an object; its result is read for
   its truthiness.  An entry that is null is in validateVariant_any
   below. *)
Definition validateVariant (variant : ImageVariant.t) : bool :=
  let hasStorage :=
    truthy (js_or (ImageVariant.r2_key variant) (ImageVariant.url variant)) in
  let hasMetadata :=
    typeof_number (ImageVariant.width variant)
    && typeof_number (ImageVariant.height variant)
    && typeof_number (ImageVariant.size_bytes variant) in
  hasStorage && hasMetadata.

Module Validation.
Record t : Type := mk { valid : bool; error : option string }.
Definition ok : t := mk true None.
Definition fail (msg : string) : t := mk false (Some msg).
End Validation.

(* The `for (const [variantName, variant] of Object.entries(body.variants))`
   loop: the name of the first entry that fails validateVariant. *)
Fixpoint first_invalid_variant (entries : Variants) : option string :=
  match entries with
  | [] => None
  | (variantName, variant) :: rest =>
    if negb (validateVariant variant) then Some variantName
    else first_invalid_variant rest
  end.

Definition invalid_variant_message (variantName : string) : string :=
  "Invalid variant '" +:+ variantName
  +:+ "': must have (r2_key or url) and (width, height, size_bytes)".

Definition validateRegistrationBody (body : RegistrationBody.t) : Validation.t :=
  if negb (truthy (RegistrationBody.is_image body)) then
    if negb (truthy (RegistrationBody.url body))
       && negb (truthy (RegistrationBody.r2_key body))
    then Validation.fail "Either url or r2_key is required"
    else if truthy (RegistrationBody.url body)
            && truthy (RegistrationBody.r2_key body)
    then Validation.fail "Cannot specify both url and r2_key for non-image assets"
    else Validation.ok
  else
    match RegistrationBody.variants body with
    | Some variants =>
      match first_invalid_variant variants with
      | Some variantName => Validation.fail (invalid_variant_message variantName)
      | None =>
        if Nat.eqb (length (keys variants)) 0
        then Validation.fail "Image assets with variants must have at least one variant"
        else Validation.ok
      end
    | None =>
      if negb (truthy (RegistrationBody.url body))
         && negb (truthy (RegistrationBody.r2_key body))
      then Validation.fail "Either url, r2_key, or variants is required"
      else Validation.ok
    end.

(* Both functions take `any`: the parsed JSON need not have the shape of
   the types.  Two departures change the control flow, a body that is
   null and a variants entry that is null: reading a property of null
   throws a TypeError.  (An entry that is a number, a string or a boolean
   has none of the properties read, and is the entry without fields.) *)
Definition AnyVariants : Type := list (string * option ImageVariant.t).

(* validateVariant(variant: any), None being null. *)
Definition validateVariant_any (variant : option ImageVariant.t)
  : completion bool :=
  match variant with
  | None => Thrown
  | Some v => Normal (validateVariant v)
  end.

(* The loop of validateRegistrationBody over entries of any kind: it stops
   at the first entry that validateVariant rejects, or on which it
   throws. *)
Fixpoint first_invalid_entry (entries : AnyVariants)
  : completion (option string) :=
  match entries with
  | [] => Normal None
  | (variantName, variant) :: rest =>
    match validateVariant_any variant with
    | Thrown => Thrown
    | Normal false => Normal (Some variantName)
    | Normal true => first_invalid_entry rest
    end
  end.

(* The parsed body: null; an object of the typed shape; or an object
   whose is_image is true and whose variants mapping has the entries
   [entries], null ones among them, its other properties being those of
   [body].  (Under a body that is not an image the entries are never
   read, and the body is taken in its typed shape.) *)
Inductive AnyBody : Type :=
| body_null
| body_typed (body : RegistrationBody.t)
| body_image (body : RegistrationBody.t) (entries : AnyVariants).

(* validateRegistrationBody(body: any).  On body_image the test
   `!body.is_image` fails and `body.variants` is truthy. *)
Definition validateRegistrationBody_any (body : AnyBody)
  : completion Validation.t :=
  match body with
  | body_null => Thrown
  | body_typed body => Normal (validateRegistrationBody body)
  | body_image _ entries =>
    match first_invalid_entry entries with
    | Thrown => Thrown
    | Normal (Some variantName) =>
      Normal (Validation.fail (invalid_variant_message variantName))
    | Normal None =>
      if Nat.eqb (length entries) 0
      then Normal (Validation.fail
                     "Image assets with variants must have at least one variant")
      else Normal Validation.ok
    end
  end.

(* The entries as typed variants, when none is null. *)
Fixpoint objects (entries : AnyVariants) : option Variants :=
  match entries with
  | [] => Some []
  | (variantName, Some variant) :: rest =>
    match objects rest with
    | Some variants => Some ((variantName, variant) :: variants)
    | None => None
    end
  | (_, None) :: _ => None
  end.


Definition as_image (body : RegistrationBody.t) (variants : Variants)
  : RegistrationBody.t :=
  RegistrationBody.mk
    (RegistrationBody.url body) (RegistrationBody.r2_key body)
    (RegistrationBody.content_type body) (RegistrationBody.size_bytes body)
    (Some true)
    (RegistrationBody.original_width body)
    (RegistrationBody.original_height body)
    (Some variants)
    (RegistrationBody.default_variant body)
    (RegistrationBody.created_at body).

(* The body as the typed shape, when it has it. *)
Definition typed_body (body : AnyBody) : option RegistrationBody.t :=
  match body with
  | body_null => None
  | body_typed body => Some body
  | body_image body entries =>
    match objects entries with
    | Some variants => Some (as_image body variants)
    | None => None
    end
  end.

(* --------------------------------------------------------------------- *)
(* The collaborators: KV namespace, R2 bucket, fetch                     *)
(* --------------------------------------------------------------------- *)

Definition Body : Type := string.

Module R2Object.
Record t : Type := mk {
  body : Body;
  httpMetadata_contentType : option string;
  size : Z
}.
End R2Object.

Module FetchResponse.
Record t : Type := mk {
  ok : bool;
  body : option Body;
  header_Content_Type : option string
}.
End FetchResponse.

Module Env.
Record t : Type := mk {
  ASSET_MAP : gmap string AssetMetadata.t;
  ARKE_ARCHIVE : gmap string R2Object.t
}.

(* ASSET_MAP.put(key, JSON.stringify(metadata)) *)
Definition put (key : string) (metadata : AssetMetadata.t) (env : t) : t :=
  mk (<[key := metadata]> (ASSET_MAP env)) (ARKE_ARCHIVE env).
End Env.

(* The global `fetch`: a response, or a rejected promise. *)
Definition Fetch : Type := string → completion FetchResponse.t.

(* --------------------------------------------------------------------- *)
(* src/utils/response.ts                                                 *)
(* --------------------------------------------------------------------- *)

Definition CACHE_CONTROL : string := "public, max-age=31536000, immutable".

Definition Headers : Type := list (string * string).

(* --------------------------------------------------------------------- *)
(* Number.prototype.toString.  A number of the model is the integer      *)
(* literal of the JSON text; JavaScript reads it as the nearest double   *)
(* and prints the shortest decimal that reads back as that double, in    *)
(* exponent form from 1e21 on.                                           *)
(* --------------------------------------------------------------------- *)

(* The double nearest to a positive integer (round to nearest, ties to
   even); None is Infinity. *)
Definition nearest_double (n : Z) : option Z :=
  let bits := (Z.log2 n + 1)%Z in
  if (bits <=? 53)%Z then Some n
  else
    let shift := (bits - 53)%Z in
    let q := Z.shiftr n shift in
    let r := Z.land n (Z.ones shift) in
    let half := Z.shiftl 1 (shift - 1) in
    let q' := if (half <? r)%Z || ((r =? half)%Z && Z.odd q)
              then (q + 1)%Z else q in
    let d := Z.shiftl q' shift in
    if (Z.shiftl 1 1024 <=? d)%Z then None else Some d.

(* Number of decimal digits of a positive integer. *)
Definition decimal_digits (n : Z) : Z :=
  Z.of_nat (String.length (pretty n)).

(* The decimal with k significant digits nearest to the double x, if it
   reads back as x. *)
Definition shortest_candidate (x : Z) (k : Z) : option Z :=
  let p := (10 ^ (decimal_digits x - k))%Z in
  let lo := (x / p * p)%Z in
  let hi := (lo + p)%Z in
  let reads_back v := match nearest_double v with
                      | Some d => (d =? x)%Z
                      | None => false
                      end in
  match reads_back lo, reads_back hi with
  | true, true =>
    if (x - lo <? hi - x)%Z then Some lo
    else if (hi - x <? x - lo)%Z then Some hi
    else if Z.even (lo / p) then Some lo else Some hi
  | true, false => Some lo
  | false, true => Some hi
  | false, false => None
  end.

Fixpoint first_candidate (x : Z) (ks : list Z) : Z :=
  match ks with
  | [] => x
  | k :: rest =>
    match shortest_candidate x k with
    | Some v => v
    | None => first_candidate x rest
    end
  end.

(* The decimal with the fewest significant digits that reads back as the
   double x: the s * 10^(n-k) of Number::toString, k as small as
   possible (17 digits always suffice). *)
Definition shortest_decimal (x : Z) : Z :=
  first_candidate x
    (List.filter (fun k => (k <=? decimal_digits x)%Z)
       (map Z.of_nat (seq 1 17))).

Fixpoint strip_zeros (fuel : nat) (v : Z) : Z :=
  match fuel with
  | O => v
  | S fuel => if (v mod 10 =? 0)%Z then strip_zeros fuel (v / 10)%Z else v
  end.

(* Number::toString of a positive double that is an integer. *)
Definition positive_toString (x : Z) : string :=
  let v := shortest_decimal x in
  let n := decimal_digits v in
  if (n <=? 21)%Z then pretty v
  else
    let s := pretty (strip_zeros (Z.to_nat n) v) in
    match s with
    | EmptyString => s
    | String first EmptyString => String first "" +:+ "e+" +:+ pretty (n - 1)%Z
    | String first rest =>
      String first "" +:+ "." +:+ rest +:+ "e+" +:+ pretty (n - 1)%Z
    end.

Definition Number_toString (n : Z) : string :=
  match n with
  | Z0 => "0"
  | Zpos _ =>
    match nearest_double n with
    | Some x => positive_toString x
    | None => "Infinity"
    end
  | Zneg _ =>
    match nearest_double (- n) with
    | Some x => "-" +:+ positive_toString x
    | None => "-Infinity"
    end
  end.

(* `${x}` for an optional string or number. *)
Definition template_string (x : option string) : string :=
  match x with Some s => s | None => "undefined" end.
Definition template_number (x : option Z) : string :=
  match x with Some n => Number_toString n | None => "undefined" end.

Definition asset_url (assetId : string) : string :=
  "https://cdn.arke.institute/asset/" +:+ assetId.

(* `urls[variant] = ...` on the plain object `urls`: for the name
   __proto__ the assignment reaches the inherited setter, which ignores
   a string, and no property is created. *)
Definition assignable (variant : string) : bool :=
  negb (String.eqb variant "__proto__").

Definition buildVariantUrls (assetId : string) (availableVariants : list VariantName)
  : list (string * string) :=
  map (fun variant => (variant, asset_url assetId +:+ "/" +:+ variant))
      (List.filter assignable availableVariants).

(* { width, height } *)
Definition Dimensions : Type := (option Z * option Z)%type.

Definition template_dimensions (d : Dimensions) : string :=
  template_number (fst d) +:+ "x" +:+ template_number (snd d).

Definition buildAssetHeaders (contentType : string) (contentLength : option Z)
    (assetId : string) (actualVariant : option VariantName)
    (variantDimensions originalDimensions : option Dimensions) : Headers :=
  [("Content-Type", contentType);
   ("Cache-Control", CACHE_CONTROL);
   ("X-Asset-Id", assetId)]
  ++ (if truthy contentLength
      then [("Content-Length", template_number contentLength)] else [])
  ++ (if truthy actualVariant
      then [("X-Variant", template_string actualVariant)] else [])
  ++ match variantDimensions with
     | Some d => [("X-Variant-Dimensions", template_dimensions d)]
     | None => []
     end
  ++ match originalDimensions with
     | Some d => [("X-Original-Dimensions", template_dimensions d)]
     | None => []
     end.

(* headers[name] *)
Fixpoint header (headers : Headers) (name : string) : option string :=
  match headers with
  | [] => None
  | (k, v) :: rest => if String.eqb k name then Some v else header rest name
  end.

(* --------------------------------------------------------------------- *)
(* Responses                                                             *)
(* --------------------------------------------------------------------- *)

(* The JSON object answered by a successful registration. *)
Module Registered.
Record t : Type := mk {
  success : bool;
  assetId : string;
  cdnUrl : string;
  storage_type : StorageType;
  defaultUrl : option string;
  variants : option (list (string * string));
  sourceUrl : option string;
  r2_key : option string
}.
End Registered.

Inductive Response : Type :=
  (* c.json({ error, ... }, status): the properties that are strings *)
  | json_error (status : Z) (payload : list (string * string))
  (* c.json(response, 201) *)
  | json_registered (status : Z) (payload : Registered.t)
  (* new Response(body, { headers }) *)
  | new_Response (body : option Body) (headers : Headers).

Definition error_property (e : option string) : list (string * string) :=
  match e with Some msg => [("error", msg)] | None => [] end.

(* --------------------------------------------------------------------- *)
(* src/handlers/registration.ts                                          *)
(* --------------------------------------------------------------------- *)

(* The object literal `metadata`; `now` is new Date().toISOString(). *)
Definition build_metadata (now : string) (body : RegistrationBody.t)
  : AssetMetadata.t :=
  AssetMetadata.mk
    (if truthy (RegistrationBody.url body) then storage_url else storage_r2)
    (RegistrationBody.url body)
    (RegistrationBody.r2_key body)
    (RegistrationBody.content_type body)
    (RegistrationBody.size_bytes body)
    (js_or (RegistrationBody.is_image body) (Some false))
    (RegistrationBody.original_width body)
    (RegistrationBody.original_height body)
    (RegistrationBody.variants body)
    (RegistrationBody.default_variant body)
    (js_or (RegistrationBody.created_at body) (Some now))
    (Some now).

(* Auto-calculate default variant if not provided and has variants. *)
Definition with_default_variant (metadata : AssetMetadata.t) : AssetMetadata.t :=
  if hasVariants metadata
     && negb (truthy (AssetMetadata.default_variant metadata))
  then AssetMetadata.set_default_variant
         (Some (calculateDefaultVariant metadata)) metadata
  else metadata.

Definition registration_response (assetId : string)
    (body : RegistrationBody.t) (metadata : AssetMetadata.t) : Registered.t :=
  if hasVariants metadata then
    let availableVariants :=
      match AssetMetadata.variants metadata with
      | Some variants => keys variants
      | None => []
      end in
    Registered.mk true assetId (asset_url assetId)
      (AssetMetadata.storage_type metadata)
      (Some (asset_url assetId +:+ "/"
             +:+ template_string (AssetMetadata.default_variant metadata)))
      (Some (buildVariantUrls assetId availableVariants))
      None None
  else
    Registered.mk true assetId (asset_url assetId)
      (AssetMetadata.storage_type metadata)
      None None
      (RegistrationBody.url body) (RegistrationBody.r2_key body).

(* The handler on a body of the typed shape.  request: the outcome of
   `await c.req.json()`, which throws on a body that is not JSON; the
   `catch` block answers 500 (its `message` property is not modelled).
   Returns the environment after the call and the response.  The handler
   on a parsed body of any kind is handleRegistration_any below. *)
Definition handleRegistration (now : string) (env : Env.t) (assetId : string)
    (request : completion RegistrationBody.t) : Env.t * Response :=
  match request with
  | Thrown => (env, json_error 500 [("error", "Registration failed")])
  | Normal body =>
    let validation := validateRegistrationBody body in
    if negb (Validation.valid validation) then
      (env, json_error 400 (error_property (Validation.error validation)))
    else
      let metadata := with_default_variant (build_metadata now body) in
      (Env.put assetId metadata env,
       json_registered 201 (registration_response assetId body metadata))
  end.

(* The handler on a parsed body of any kind.  Whatever is thrown inside
   the `try` block, by `c.req.json()` or by validation reading a property
   of null, is caught and answered 500.  Past validation the body has the
   typed shape (an accepted body has no null entry) and the handler
   continues as above. *)
Definition handleRegistration_any (now : string) (env : Env.t)
    (assetId : string) (request : completion AnyBody) : Env.t * Response :=
  match request with
  | Thrown => (env, json_error 500 [("error", "Registration failed")])
  | Normal body =>
    match validateRegistrationBody_any body with
    | Thrown => (env, json_error 500 [("error", "Registration failed")])
    | Normal validation =>
      if negb (Validation.valid validation) then
        (env, json_error 400 (error_property (Validation.error validation)))
      else
        match typed_body body with
        | Some body =>
          let metadata := with_default_variant (build_metadata now body) in
          (Env.put assetId metadata env,
           json_registered 201 (registration_response assetId body metadata))
        | None => (env, json_error 500 [("error", "Registration failed")])
        end
    end
  end.

(* --------------------------------------------------------------------- *)
(* src/handlers/retrieval.ts                                             *)
(* --------------------------------------------------------------------- *)

(* String.prototype.split with a single-character separator. *)
Fixpoint split_from (sep : ascii) (s : string) (current : string) : list string :=
  match s with
  | EmptyString => [current]
  | String c rest =>
    if Ascii.eqb c sep then current :: split_from sep rest ""
    else split_from sep rest (current +:+ String c "")
  end.

Definition split (sep : ascii) (s : string) : list string := split_from sep s "".

(* trailingPath.split('/').filter(Boolean)[0] || '' *)
Definition first_path_part (path : option string) : string :=
  let trailingPath := default "" (js_or path (Some "")) in
  let pathParts := List.filter truthy (split "/" trailingPath) in
  default "" (js_or (pathParts !! 0%nat) (Some "")).

(* Lines 29-38: the variant asked of the resolver. *)
Definition variantToServe (metadata : AssetMetadata.t) (firstPart : string)
  : VariantName :=
  if isValidVariantName firstPart then firstPart
  else calculateDefaultVariant metadata.

(* The answer of the `catch` block; its `message` property, the text of
   the exception, is not modelled. *)
Definition internal_server_error : Response :=
  json_error 500 [("error", "Internal server error")].

(* Lines 52-91: fetch the chosen variant and answer it. *)
Definition serve_variant (env : Env.t) (fetch : Fetch) (assetId : string)
    (metadata : AssetMetadata.t) (variant : ImageVariant.t)
    (actualVariant : VariantName) : Response :=
  let headers_for (contentType : string) :=
    buildAssetHeaders contentType (ImageVariant.size_bytes variant) assetId
      (Some actualVariant)
      (Some (ImageVariant.width variant, ImageVariant.height variant))
      (if truthy (AssetMetadata.original_width metadata)
          && truthy (AssetMetadata.original_height metadata)
       then Some (AssetMetadata.original_width metadata,
                  AssetMetadata.original_height metadata)
       else None) in
  match getVariantStorage variant with
  | None => json_error 500 [("error", "Invalid variant storage configuration")]
  | Some (storage_r2, location) =>
    match Env.ARKE_ARCHIVE env !! location with
    | None => json_error 404 [("error", "Variant not found in R2 storage")]
    | Some r2Object =>
      let contentType :=
        js_or_else
          (js_or (ImageVariant.content_type variant)
             (js_or (AssetMetadata.content_type metadata)
                (R2Object.httpMetadata_contentType r2Object)))
          DEFAULT_CONTENT_TYPE in
      new_Response (Some (R2Object.body r2Object)) (headers_for contentType)
    end
  | Some (storage_url, location) =>
    match fetch location with
    | Thrown => internal_server_error
    | Normal response =>
      if negb (FetchResponse.ok response) then
        json_error 503 [("error", "Failed to fetch variant from storage")]
      else
        let contentType :=
          js_or_else
            (js_or (ImageVariant.content_type variant)
               (js_or (AssetMetadata.content_type metadata)
                  (FetchResponse.header_Content_Type response)))
            DEFAULT_CONTENT_TYPE in
        new_Response (FetchResponse.body response) (headers_for contentType)
    end
  end.

(* Lines 104-133: serve the original asset of a record without variants. *)
Definition serve_original (env : Env.t) (fetch : Fetch) (assetId : string)
    (metadata : AssetMetadata.t) : Response :=
  match AssetMetadata.storage_type metadata,
        if_truthy (AssetMetadata.r2_key metadata),
        if_truthy (AssetMetadata.url metadata) with
  | storage_r2, Some key, _ =>
    match Env.ARKE_ARCHIVE env !! key with
    | None => json_error 404 [("error", "Asset not found in R2 storage")]
    | Some r2Object =>
      let contentType :=
        js_or_else
          (js_or (AssetMetadata.content_type metadata)
             (R2Object.httpMetadata_contentType r2Object))
          DEFAULT_CONTENT_TYPE in
      let contentLength :=
        js_or (AssetMetadata.size_bytes metadata) (Some (R2Object.size r2Object)) in
      new_Response (Some (R2Object.body r2Object))
        (buildAssetHeaders contentType contentLength assetId None None None)
    end
  | storage_url, _, Some location =>
    match fetch location with
    | Thrown => internal_server_error
    | Normal response =>
      if negb (FetchResponse.ok response) then
        json_error 503 [("error", "Failed to fetch asset from storage")]
      else
        let contentType :=
          js_or_else
            (js_or (AssetMetadata.content_type metadata)
               (FetchResponse.header_Content_Type response))
            DEFAULT_CONTENT_TYPE in
        new_Response (FetchResponse.body response)
          (buildAssetHeaders contentType (AssetMetadata.size_bytes metadata)
             assetId None None None)
    end
  | _, _, _ =>
    json_error 500 [("error", "Invalid asset metadata: missing storage configuration")]
  end.

(* path: c.req.param('path'), undefined on the route without a trailing
   path. *)
Definition handleRetrieval (env : Env.t) (fetch : Fetch) (assetId : string)
    (path : option string) : Response :=
  match Env.ASSET_MAP env !! assetId with
  | None => json_error 404 [("error", "Asset not found")]
  | Some metadata =>
    let firstPart := first_path_part path in
    let isVariantRequest := isValidVariantName firstPart in
    if hasVariants metadata then
      let requested := variantToServe metadata firstPart in
      match getVariantToServe metadata requested with
      | Thrown => internal_server_error
      | Normal None =>
        json_error 404 [("error", "No suitable variant found");
                        ("requested", requested)]
      | Normal (Some (variant, actualVariant)) =>
        serve_variant env fetch assetId metadata variant actualVariant
      end
    else if isVariantRequest then
      json_error 400 [("error", "Variants not available for this asset type");
                      ("assetId", assetId)]
    else serve_original env fetch assetId metadata
  end.

(* ===================================================================== *)
(* The earlier single-file workers (src/unnamed/part_001)                *)
(* ===================================================================== *)

(* The object literal `headers` of the earlier workers, with its
   conditional Content-Length. *)
Definition inline_headers (contentType : string) (contentLength : option Z)
    (assetId : string) : Headers :=
  [("Content-Type", contentType);
   ("Cache-Control", "public, max-age=31536000, immutable");
   ("X-Asset-Id", assetId)]
  ++ (if truthy contentLength
      then [("Content-Length", template_number contentLength)] else []).

(* --------------------------------------------------------------------- *)
(* The worker with URL and R2 storage (second file of part_001).  Its    *)
(* records are AssetMetadata records whose image fields are absent; it   *)
(* reads url, r2_key, content_type and size_bytes of the body only.      *)
(* --------------------------------------------------------------------- *)

Module LegacyR2.

(* app.get('/asset/:assetId/*') and app.get('/asset/:assetId'): the two
   handlers have the same body, which never reads the trailing path. *)
Definition get_asset (env : Env.t) (fetch : Fetch) (assetId : string)
  : Response :=
  match Env.ASSET_MAP env !! assetId with
  | None => json_error 404 [("error", "Asset not found")]
  | Some metadata =>
    match AssetMetadata.storage_type metadata,
          if_truthy (AssetMetadata.r2_key metadata),
          if_truthy (AssetMetadata.url metadata) with
    | storage_r2, Some key, _ =>
      match Env.ARKE_ARCHIVE env !! key with
      | None => json_error 404 [("error", "Asset not found in R2 storage")]
      | Some r2Object =>
        let contentType :=
          js_or_else
            (js_or (AssetMetadata.content_type metadata)
               (R2Object.httpMetadata_contentType r2Object))
            "application/octet-stream" in
        let contentLength :=
          js_or (AssetMetadata.size_bytes metadata)
            (Some (R2Object.size r2Object)) in
        new_Response (Some (R2Object.body r2Object))
          (inline_headers contentType contentLength assetId)
      end
    | storage_url, _, Some location =>
      match fetch location with
      | Thrown => internal_server_error
      | Normal response =>
        if negb (FetchResponse.ok response) then
          json_error 503 [("error", "Failed to fetch asset from storage")]
        else
          let contentType :=
            js_or_else
              (js_or (AssetMetadata.content_type metadata)
                 (FetchResponse.header_Content_Type response))
              "application/octet-stream" in
          new_Response (FetchResponse.body response)
            (inline_headers contentType (AssetMetadata.size_bytes metadata)
               assetId)
      end
    | _, _, _ =>
      json_error 500
        [("error", "Invalid asset metadata: missing storage configuration")]
    end
  end.

(* The object literal `metadata` of app.post. *)
Definition build_metadata (now : string) (body : RegistrationBody.t)
  : AssetMetadata.t :=
  AssetMetadata.mk
    (if truthy (RegistrationBody.url body) then storage_url else storage_r2)
    (RegistrationBody.url body)
    (RegistrationBody.r2_key body)
    (RegistrationBody.content_type body)
    (RegistrationBody.size_bytes body)
    None None None None None
    (Some now)
    None.

(* app.post('/asset/:assetId') *)
Definition post_asset (now : string) (env : Env.t) (assetId : string)
    (request : completion RegistrationBody.t) : Env.t * Response :=
  match request with
  | Thrown => (env, json_error 500 [("error", "Registration failed")])
  | Normal body =>
    if negb (truthy (RegistrationBody.url body))
       && negb (truthy (RegistrationBody.r2_key body))
    then (env, json_error 400 [("error", "Either url or r2_key is required")])
    else if truthy (RegistrationBody.url body)
            && truthy (RegistrationBody.r2_key body)
    then (env, json_error 400 [("error", "Cannot specify both url and r2_key")])
    else
      let metadata := build_metadata now body in
      (Env.put assetId metadata env,
       json_registered 201
         (Registered.mk true assetId (asset_url assetId)
            (AssetMetadata.storage_type metadata) None None
            (RegistrationBody.url body) (RegistrationBody.r2_key body)))
  end.

End LegacyR2.

(* --------------------------------------------------------------------- *)
(* The first worker, URL storage only (first file of part_001).          *)
(* --------------------------------------------------------------------- *)

Module LegacyUrl.

Module AssetMetadata.
Record t : Type := mk {
  url : string;
  content_type : option string;
  size_bytes : option Z;
  created_at : option string
}.
End AssetMetadata.

(* Its only binding is the KV namespace ASSET_MAP. *)
Definition KV : Type := gmap string AssetMetadata.t.

(* app.get('/asset/:assetId/*') and app.get('/asset/:assetId'), of the
   same body. *)
Definition get_asset (kv : gmap string AssetMetadata.t) (fetch : Fetch)
    (assetId : string) : Response :=
  match kv !! assetId with
  | None => json_error 404 [("error", "Asset not found")]
  | Some metadata =>
    match fetch (AssetMetadata.url metadata) with
    | Thrown => internal_server_error
    | Normal response =>
      if negb (FetchResponse.ok response) then
        json_error 503 [("error", "Failed to fetch asset from storage")]
      else
        new_Response (FetchResponse.body response)
          (inline_headers
             (js_or_else
                (js_or (AssetMetadata.content_type metadata)
                   (FetchResponse.header_Content_Type response))
                "application/octet-stream")
             (AssetMetadata.size_bytes metadata) assetId)
    end
  end.

(* What app.post answers: an error object, or the object
   { success: true, assetId, cdnUrl, sourceUrl }. *)
Inductive PostResponse : Type :=
  | post_error (status : Z) (payload : list (string * string))
  | post_created (status : Z) (assetId cdnUrl sourceUrl : string).

(* app.post('/asset/:assetId') *)
Definition post_asset (now : string) (kv : gmap string AssetMetadata.t)
    (assetId : string) (request : completion RegistrationBody.t)
  : gmap string AssetMetadata.t * PostResponse :=
  match request with
  | Thrown => (kv, post_error 500 [("error", "Registration failed")])
  | Normal body =>
    match if_truthy (RegistrationBody.url body) with
    | None => (kv, post_error 400 [("error", "URL is required")])
    | Some url =>
      let metadata :=
        AssetMetadata.mk url (RegistrationBody.content_type body)
          (RegistrationBody.size_bytes body) (Some now) in
      (<[assetId := metadata]> kv,
       post_created 201 assetId (asset_url assetId) url)
    end
  end.

End LegacyUrl.

(* ===================================================================== *)
(* The vocabulary of the specification                                   *)
(* ===================================================================== *)

(* "name is present in the variants mapping" *)
Definition is_key (vs : Variants) (name : VariantName) : bool :=
  bool_decide (name ∈ keys vs).

(* The fallback chains as the specification lists them. *)
Definition fallback_table : list (VariantName * list VariantName) :=
  [("thumb", ["thumb"; "medium"; "original"]);
   ("medium", ["medium"; "original"]);
   ("large", ["large"; "medium"; "original"]);
   ("original", ["original"])].

(* [actual] is the first entry of [chain] that is a key of [vs]. *)
Definition first_present (vs : Variants) (chain : list VariantName)
    (actual : VariantName) : Prop :=
  ∃ i : nat, chain !! i = Some actual ∧ actual ∈ keys vs
    ∧ ∀ (j : nat) (n : VariantName), (j < i)%nat → chain !! j = Some n → n ∉ keys vs.

(* A priority list of (condition, result) rules and its first applicable
   rule. *)
Definition first_applicable (rules : list (bool * VariantName))
  : option VariantName :=
  snd <$> List.find fst rules.

(* The six rules of default-variant computation, over the presence test
   of the variants mapping and the condition on the width of the
   original. *)
Definition default_rules (present : VariantName → bool) (small_original : bool)
  : list (bool * VariantName) :=
  [(present "medium", "medium");
   (present "original" && small_original, "original");
   (present "large", "large");
   (present "original", "original");
   (present "thumb", "thumb");
   (true, "original")].

(* "original_width is known and ≤ 1288" *)
Definition known_at_most (w : option Z) (k : Z) : bool :=
  match w with Some n => bool_decide (n ≤ k)%Z | None => false end.

(* "original_width is known, not zero, and ≤ 1288" *)
Definition known_nonzero_at_most (w : option Z) (k : Z) : bool :=
  match w with
  | Some n => bool_decide (n ≠ 0 ∧ n ≤ k)%Z
  | None => false
  end.

(* "a non-empty location source" *)
Definition populated (x : option string) : Prop :=
  ∃ s, x = Some s ∧ s ≠ "".

(* "all three of width, height and size_bytes as numbers" *)
Definition has_dimensions (v : ImageVariant.t) : Prop :=
  is_Some (ImageVariant.width v) ∧ is_Some (ImageVariant.height v)
  ∧ is_Some (ImageVariant.size_bytes v).

(* The entry invariant as the code enforces it: at least one location. *)
Definition entry_accepted (v : ImageVariant.t) : Prop :=
  (populated (ImageVariant.r2_key v) ∨ populated (ImageVariant.url v))
  ∧ has_dimensions v.



(* The record that registration stores under the asset id. *)
Definition persisted (now : string) (env : Env.t) (assetId : string)
    (body : RegistrationBody.t) : option AssetMetadata.t :=
  Env.ASSET_MAP (handleRegistration now env assetId (Normal body)).1 !! assetId.

(* The three JSON errors of retrieval that the properties name. *)
Definition variants_not_available (assetId : string) : Response :=
  json_error 400 [("error", "Variants not available for this asset type");
                  ("assetId", assetId)].

Definition no_suitable_variant (requested : VariantName) : Response :=
  json_error 404 [("error", "No suitable variant found");
                  ("requested", requested)].

Definition status_of (r : Response) : option Z :=
  match r with
  | json_error status _ => Some status
  | json_registered status _ => Some status
  | new_Response _ _ => None
  end.

(* The two JSON errors of retrieval that report a record without a
   usable storage location. *)
Definition invalid_variant_storage : Response :=
  json_error 500 [("error", "Invalid variant storage configuration")].

Definition missing_storage_configuration : Response :=
  json_error 500
    [("error", "Invalid asset metadata: missing storage configuration")].

(* The body with its default_variant property removed. *)
Definition without_default_variant (body : RegistrationBody.t)
  : RegistrationBody.t :=
  RegistrationBody.mk (RegistrationBody.url body)
    (RegistrationBody.r2_key body) (RegistrationBody.content_type body)
    (RegistrationBody.size_bytes body) (RegistrationBody.is_image body)
    (RegistrationBody.original_width body)
    (RegistrationBody.original_height body)
    (RegistrationBody.variants body) None
    (RegistrationBody.created_at body).

(* "the segment contains no slash" *)
Fixpoint slash_free (s : string) : bool :=
  match s with
  | EmptyString => true
  | String c rest => negb (Ascii.eqb c "/") && slash_free rest
  end.

(* "the R2 bucket and fetch report no empty content type" *)
(* ===================================================================== *)
(* Sample records, bodies and environments                               *)
(* ===================================================================== *)

Definition a_date : string := "2025-01-01T00:00:00.000Z".

Definition env_empty : Env.t := Env.mk ∅ ∅.

Definition fetch_unreachable : Fetch := fun _ => Thrown.

(* The scenario of the specification: asset A1, an image 4416 pixels wide
   registered with a medium and an original variant. *)
Definition medium_A1 : ImageVariant.t :=
  ImageVariant.mk (Some "A1/medium.jpg") None (Some 1288%Z) (Some 1082%Z)
    (Some 240000%Z) None.

Definition original_A1 : ImageVariant.t :=
  ImageVariant.mk (Some "A1/original.jpg") None (Some 4416%Z) (Some 3710%Z)
    (Some 5200000%Z) None.

Definition variants_A1 : Variants :=
  [("medium", medium_A1); ("original", original_A1)].

Definition body_A1 : RegistrationBody.t :=
  RegistrationBody.mk None None (Some "image/jpeg") None (Some true)
    (Some 4416%Z) (Some 3710%Z) (Some variants_A1) None None.

Definition record_A1 : AssetMetadata.t :=
  AssetMetadata.mk storage_r2 None None (Some "image/jpeg") None (Some true)
    (Some 4416%Z) (Some 3710%Z) (Some variants_A1) (Some "medium")
    (Some a_date) (Some a_date).

(* An R2 bucket that holds the two objects of A1. *)
Definition env_archive : Env.t :=
  Env.mk ∅
    (<[ "A1/medium.jpg" := R2Object.mk "medium bytes" None 240000%Z ]>
     (<[ "A1/original.jpg" := R2Object.mk "original bytes" None 5200000%Z ]>
      ∅)).

(* The environment after POST /asset/A1 with the body of the scenario. *)
Definition env_A1 : Env.t :=
  (handleRegistration a_date env_archive "A1" (Normal body_A1)).1.

(* The body and the X-Variant header of a streamed response. *)
Definition streamed (r : Response) : option (option Body * option string) :=
  match r with
  | new_Response body headers => Some (body, header headers "X-Variant")
  | _ => None
  end.

(* An image with a large and an original variant whose recorded width is
   0. *)
Definition record_width_zero : AssetMetadata.t :=
  AssetMetadata.mk storage_r2 None None None None (Some true)
    (Some 0%Z) None
    (Some [("large", original_A1); ("original", original_A1)])
    None None None.

(* A record that holds a medium variant and names thumb as its default. *)
Definition record_explicit_thumb : AssetMetadata.t :=
  AssetMetadata.set_default_variant (Some "thumb") record_A1.

(* A document registered by URL, without variants. *)
Definition body_pdf : RegistrationBody.t :=
  RegistrationBody.mk (Some "https://origin.example/doc.pdf") None
    (Some "application/pdf") None None None None None None None.

Definition record_pdf : AssetMetadata.t :=
  AssetMetadata.mk storage_url (Some "https://origin.example/doc.pdf") None
    (Some "application/pdf") None (Some false) None None None None
    (Some a_date) (Some a_date).

Definition env_pdf : Env.t :=
  Env.mk {[ "D1" := record_pdf ]} ∅.

(* An entry without location and without dimensions. *)
Definition variant_malformed : ImageVariant.t :=
  ImageVariant.mk None None None None None None.

(* An entry that names both an R2 key and a URL. *)
Definition variant_both_locations : ImageVariant.t :=
  ImageVariant.mk (Some "A2/medium.jpg") (Some "https://origin.example/m.jpg")
    (Some 1288%Z) (Some 1082%Z) (Some 240000%Z) None.


(* A medium entry without its width, after a well-formed original. *)
Definition variant_no_width : ImageVariant.t :=
  ImageVariant.mk (Some "A3/medium.jpg") None None (Some 1082%Z)
    (Some 240000%Z) None.

Definition body_no_width : RegistrationBody.t :=
  RegistrationBody.mk None None (Some "image/jpeg") None (Some true)
    (Some 4416%Z) (Some 3710%Z)
    (Some [("original", original_A1); ("medium", variant_no_width)])
    None None.


Definition entries_null_first : AnyVariants :=
  [("medium", None); ("thumb", Some variant_no_width)].

(* An image without variants that gives both a URL and an R2 key. *)
Definition body_image_both : RegistrationBody.t :=
  RegistrationBody.mk (Some "https://origin.example/photo.jpg")
    (Some "photos/photo.jpg") (Some "image/jpeg") None (Some true)
    None None None None None.

(* An image whose only variant has a name outside the four. *)
Definition body_banner : RegistrationBody.t :=
  RegistrationBody.mk None None (Some "image/jpeg") None (Some true)
    (Some 4416%Z) (Some 3710%Z) (Some [("banner", medium_A1)]) None None.

(* An image with the single variant original that names medium as its
   default. *)
Definition body_explicit_medium : RegistrationBody.t :=
  RegistrationBody.mk None None (Some "image/jpeg") None (Some true)
    (Some 4416%Z) (Some 3710%Z) (Some [("original", original_A1)])
    (Some "medium") None.

(* An image that names a default outside the four variant names. *)
Definition body_default_huge : RegistrationBody.t :=
  RegistrationBody.mk None None (Some "image/jpeg") None (Some true)
    (Some 4416%Z) (Some 3710%Z) (Some variants_A1) (Some "huge") None.

(* An origin that answers every URL with the same page. *)
Definition fetch_page : Fetch :=
  fun _ => Normal (FetchResponse.mk true (Some "page bytes") (Some "text/html")).

(* A body of the shape the earlier workers accept: a URL and a size. *)
Definition body_page : RegistrationBody.t :=
  RegistrationBody.mk (Some "https://origin.example/page") None None
    (Some 1024%Z) None None None None None None.

(* An origin that answers with an empty Content-Type header, and a
   record stored without a content type. *)
Definition fetch_empty_type : Fetch :=
  fun _ => Normal (FetchResponse.mk true (Some "page bytes") (Some "")).

Definition record_page : AssetMetadata.t :=
  AssetMetadata.mk storage_url (Some "https://origin.example/page") None
    None (Some 1024%Z) (Some false) None None None None
    (Some a_date) (Some a_date).

Definition env_page : Env.t :=
  Env.mk {[ "P1" := record_page ]} ∅.

(* ===================================================================== *)
(* Properties                                                            *)
(* ===================================================================== *)

(* --------------------------------------------------------------------- *)
(* Presence of a key in `variants`                                       *)
(* --------------------------------------------------------------------- *)

Lemma get_None (vs : Variants) (name : string) :
  get vs name = None ↔ name ∉ keys vs.
Proof.
  induction vs as [|[k v] rest IH]; simpl.
  - split; [intros _; apply not_elem_of_nil | done].
  - rewrite not_elem_of_cons. destruct (String.eqb_spec k name) as [->|Hne].
    + split; [done | intros [Hne _]; done].
    + rewrite IH. split; [intros H; split; [congruence | done] | intros [_ H]; done].
Qed.

Lemma get_Some (vs : Variants) (name : string) :
  is_Some (get vs name) ↔ name ∈ keys vs.
Proof.
  rewrite <- not_eq_None_Some, get_None.
  split; [apply dec_stable | intros H Hn; done].
Qed.

Lemma truthy_get (vs : Variants) (name : string) :
  truthy (get vs name) = is_key vs name.
Proof.
  unfold is_key.
  destruct (get vs name) as [v|] eqn:E.
  - symmetry. apply bool_decide_eq_true. apply get_Some. by rewrite E.
  - symmetry. apply bool_decide_eq_false. by apply get_None.
Qed.

Lemma if_truthy_get (vs : Variants) (name : string) :
  if_truthy (get vs name) = get vs name.
Proof. by destruct (get vs name). Qed.

Lemma hasVariants_inv (m : AssetMetadata.t) :
  hasVariants m = true →
  AssetMetadata.is_image m = Some true
  ∧ ∃ vs, AssetMetadata.variants m = Some vs ∧ vs ≠ [].
Proof.
  unfold hasVariants. intros [Hi Hv]%andb_prop. split.
  - by destruct (AssetMetadata.is_image m) as [[]|].
  - destruct (AssetMetadata.variants m) as [[|e vs]|]; try done.
    by exists (e :: vs).
Qed.

(* --------------------------------------------------------------------- *)
(* The resolver                                                          *)
(* --------------------------------------------------------------------- *)

Lemma walk_chain_Some (vs : Variants) (chain : list VariantName)
    (v : ImageVariant.t) (actual : VariantName) :
  walk_chain vs chain = Some (v, actual)
  ↔ get vs actual = Some v ∧ first_present vs chain actual.
Proof.
  induction chain as [|n rest IH]; simpl.
  - split; [done | intros (_ & i & Hi & _); by destruct i].
  - rewrite if_truthy_get. destruct (get vs n) as [w|] eqn:E.
    + split.
      * intros [= -> ->]. split; [done|]. exists 0%nat. split; [done|].
        split; [apply get_Some; by rewrite E | intros j ? Hj; lia].
      * intros (Hv & i & Hi & _ & Hfirst). destruct i as [|i].
        -- simpl in Hi. injection Hi as ->. congruence.
        -- exfalso. apply (Hfirst 0%nat n); [lia | done |].
           apply get_Some. by rewrite E.
    + rewrite IH. apply get_None in E. split.
      * intros (Hv & i & Hi & Hin & Hfirst). split; [done|].
        exists (S i). split; [done|]. split; [done|].
        intros [|j] m Hj Hm; simpl in Hm; [by injection Hm as <- |].
        apply (Hfirst j); [lia | done].
      * intros (Hv & i & Hi & Hin & Hfirst). split; [done|].
        destruct i as [|i]; [simpl in Hi; injection Hi as ->; done|].
        exists i. split; [done|]. split; [done|].
        intros j m Hj Hm. apply (Hfirst (S j)); [lia | done].
Qed.

Lemma walk_chain_None (vs : Variants) (chain : list VariantName) :
  walk_chain vs chain = None ↔ ∀ n, n ∈ chain → n ∉ keys vs.
Proof.
  induction chain as [|n rest IH]; simpl.
  - split; [intros _ n Hn; by apply elem_of_nil in Hn | done].
  - rewrite if_truthy_get. destruct (get vs n) as [w|] eqn:E.
    + split; [done|]. intros H. exfalso. apply (H n); [left|].
      apply get_Some. by rewrite E.
    + rewrite IH. apply get_None in E. split.
      * intros H m [->|Hm]%elem_of_cons; [done | by apply H].
      * intros H m Hm. apply H. by right.
Qed.

Lemma fallbackChains_table (target : VariantName) (chain : list VariantName) :
  (target, chain) ∈ fallback_table → fallbackChains target = Some chain.
Proof.
  unfold fallback_table. rewrite !elem_of_cons, elem_of_nil.
  intros [[= -> ->]|[[= -> ->]|[[= -> ->]|[[= -> ->]|[]]]]]; reflexivity.
Qed.

Lemma fallbackChains_valid (target : VariantName) :
  isValidVariantName target = true ↔ is_Some (fallbackChains target).
Proof.
  unfold isValidVariantName, fallbackChains, VARIANT_NAMES. simpl.
  destruct (String.eqb target "thumb"); [by split|].
  destruct (String.eqb target "medium"); [by split|].
  destruct (String.eqb target "large"); [by split|].
  destruct (String.eqb target "original"); [by split|].
  simpl. split; [done | by intros [? ?]].
Qed.

(** C1: on a variant-bearing record and a target with chain [chain] in the
    fixed table (thumb: thumb, medium, original; medium: medium, original;
    large: large, medium, original; original: original), getVariantToServe
    completes; it returns the entry [v] with actual variant [actual]
    exactly when [actual] is the first name of the chain that is a key of
    the variants mapping and [v] is the entry under it, and it returns
    null exactly when no name of the chain is a key.  In particular thumb
    on a record with medium but no thumb returns the medium entry with
    actual variant medium, and original on a record without original
    returns null whatever else the record holds. *)
Theorem getVariantToServe_fallback_chain
    (m : AssetMetadata.t) (vs : Variants)
    (target : VariantName) (chain : list VariantName) :
  hasVariants m = true →
  AssetMetadata.variants m = Some vs →
  (target, chain) ∈ fallback_table →
  (∃ r, getVariantToServe m target = Normal r)
  ∧ (∀ v actual,
       getVariantToServe m target = Normal (Some (v, actual))
       ↔ get vs actual = Some v ∧ first_present vs chain actual)
  ∧ (getVariantToServe m target = Normal None
     ↔ ∀ n, n ∈ chain → n ∉ keys vs)
  ∧ (∀ v, "thumb" ∉ keys vs → get vs "medium" = Some v →
       getVariantToServe m "thumb" = Normal (Some (v, "medium")))
  ∧ ("original" ∉ keys vs → getVariantToServe m "original" = Normal None).
Proof.
  intros _ Hvs Hchain. apply fallbackChains_table in Hchain.
  unfold getVariantToServe. rewrite Hvs, Hchain.
  split; [eauto|]. split; [|split; [|split]].
  - intros v actual. rewrite <- walk_chain_Some.
    split; [by intros [= ->] | by intros ->].
  - rewrite <- walk_chain_None. split; [by intros [= ->] | by intros ->].
  - intros v Ht%get_None Hm. simpl. rewrite !if_truthy_get, Ht, Hm. done.
  - intros Ho%get_None. simpl. rewrite if_truthy_get, Ho. done.
Qed.

Lemma getVariantToServe_fallback_chain_witness :
  getVariantToServe record_A1 "thumb" = Normal (Some (medium_A1, "medium"))
  ∧ getVariantToServe record_A1 "original" = Normal (Some (original_A1, "original")).
Proof.
  destruct (getVariantToServe_fallback_chain record_A1 variants_A1
              "thumb" ["thumb"; "medium"; "original"] eq_refl eq_refl)
    as (_ & _ & _ & Hthumb & _).
  { apply list_elem_of_here. }
  split; [|reflexivity].
  apply Hthumb; [|reflexivity].
  apply get_None. reflexivity.
Defined.

(* --------------------------------------------------------------------- *)
(* Default-variant computation                                           *)
(* --------------------------------------------------------------------- *)

Lemma width_condition (w : option Z) (k : Z) :
  truthy w && js_le w k = known_nonzero_at_most w k.
Proof.
  destruct w as [n|]; [|done].
  cbv [truthy truthy_optional truthy_number js_le known_nonzero_at_most].
  destruct (Z.eqb_spec n 0) as [Hn|Hn], (Z.leb_spec n k) as [Hk|Hk]; simpl;
    symmetry; rewrite ?bool_decide_eq_true, ?bool_decide_eq_false; lia.
Qed.

Lemma calculateDefaultVariant_rules (m : AssetMetadata.t) (vs : Variants) :
  AssetMetadata.variants m = Some vs →
  truthy (AssetMetadata.default_variant m) = false →
  first_applicable
    (default_rules (is_key vs)
       (known_nonzero_at_most (AssetMetadata.original_width m) 1288%Z))
  = Some (calculateDefaultVariant m).
Proof.
  intros Hvs Hd. unfold calculateDefaultVariant, if_truthy.
  rewrite Hd, Hvs, <- andb_assoc, width_condition, !truthy_get.
  unfold first_applicable, default_rules, VARIANT_SIZES.medium. simpl.
  destruct (known_nonzero_at_most _ _), (is_key vs "medium"),
    (is_key vs "original"), (is_key vs "large"), (is_key vs "thumb"); done.
Qed.

(** C2, as stated, fails: with original_width 0 (known, and ≤ 1288), no
    medium, and both large and original present, the rules of the claim
    select original, and calculateDefaultVariant returns large. *)
Lemma calculateDefaultVariant_width_zero :
  ¬ (∀ (m : AssetMetadata.t) (vs : Variants),
       hasVariants m = true →
       AssetMetadata.variants m = Some vs →
       AssetMetadata.default_variant m = None →
       first_applicable
         (default_rules (is_key vs)
            (known_at_most (AssetMetadata.original_width m) 1288%Z))
       = Some (calculateDefaultVariant m)).
Proof.
  intros H.
  specialize (H record_width_zero _ eq_refl eq_refl eq_refl).
  vm_compute in H. discriminate H.
Qed.

(** C2 (amended): on a variant-bearing record without an explicit
    default variant, calculateDefaultVariant returns the first applicable
    of: medium if present; original if present and original_width is
    known, not zero and ≤ 1288; large if present; original if present;
    thumb if present; original as a last resort.  When original_width is
    absent the second rule never applies: the result is the first
    applicable of the remaining rules. *)
Theorem calculateDefaultVariant_cascade (m : AssetMetadata.t) (vs : Variants) :
  hasVariants m = true →
  AssetMetadata.variants m = Some vs →
  AssetMetadata.default_variant m = None →
  first_applicable
    (default_rules (is_key vs)
       (known_nonzero_at_most (AssetMetadata.original_width m) 1288%Z))
  = Some (calculateDefaultVariant m)
  ∧ (AssetMetadata.original_width m = None →
     first_applicable (default_rules (is_key vs) false)
     = Some (calculateDefaultVariant m)).
Proof.
  intros _ Hvs Hd. split.
  - apply calculateDefaultVariant_rules; [done | by rewrite Hd].
  - intros Hw. rewrite <- (calculateDefaultVariant_rules m vs Hvs); [|by rewrite Hd].
    by rewrite Hw.
Qed.

Lemma calculateDefaultVariant_cascade_witness :
  first_applicable
    (default_rules (is_key variants_A1) (known_nonzero_at_most (Some 4416%Z) 1288%Z))
  = Some (calculateDefaultVariant
            (AssetMetadata.set_default_variant None record_A1))
  ∧ calculateDefaultVariant
      (AssetMetadata.set_default_variant None record_A1) = "medium".
Proof.
  split; [|reflexivity].
  exact (proj1 (calculateDefaultVariant_cascade
                  (AssetMetadata.set_default_variant None record_A1)
                  variants_A1 eq_refl eq_refl eq_refl)).
Defined.

(** C9, as stated, fails: an explicitly set default_variant takes
    precedence over a present medium. *)
Lemma calculateDefaultVariant_explicit_over_medium :
  ¬ (∀ (m : AssetMetadata.t) (vs : Variants),
       hasVariants m = true →
       AssetMetadata.variants m = Some vs →
       "medium" ∈ keys vs →
       calculateDefaultVariant m = "medium").
Proof.
  intros H.
  specialize (H record_explicit_thumb variants_A1 eq_refl eq_refl).
  assert (Hin : "medium" ∈ keys variants_A1) by apply list_elem_of_here.
  specialize (H Hin). vm_compute in H. discriminate H.
Qed.

(** C9 (amended): on a variant-bearing record whose variants mapping
    contains medium and whose default_variant is absent or empty,
    calculateDefaultVariant returns medium whatever the other fields
    hold; a non-empty default_variant is returned as it is. *)
Theorem calculateDefaultVariant_medium (m : AssetMetadata.t) (vs : Variants) :
  hasVariants m = true →
  AssetMetadata.variants m = Some vs →
  "medium" ∈ keys vs →
  (truthy (AssetMetadata.default_variant m) = false →
   calculateDefaultVariant m = "medium")
  ∧ (∀ d, AssetMetadata.default_variant m = Some d → d ≠ "" →
     calculateDefaultVariant m = d).
Proof.
  intros _ Hvs Hin. unfold calculateDefaultVariant, if_truthy. split.
  - intros ->. rewrite Hvs, truthy_get. unfold is_key.
    by rewrite bool_decide_eq_true_2.
  - intros d -> Hd. cbv [truthy truthy_optional truthy_string].
    by destruct (String.eqb_spec d "").
Qed.

Lemma calculateDefaultVariant_medium_witness :
  calculateDefaultVariant
    (AssetMetadata.set_default_variant None record_A1) = "medium"
  ∧ calculateDefaultVariant record_explicit_thumb = "thumb".
Proof.
  assert (Hin : "medium" ∈ keys variants_A1) by apply list_elem_of_here.
  split.
  - apply (proj1 (calculateDefaultVariant_medium
                    (AssetMetadata.set_default_variant None record_A1)
                    variants_A1 eq_refl eq_refl Hin)).
    reflexivity.
  - apply (proj2 (calculateDefaultVariant_medium record_explicit_thumb
                    variants_A1 eq_refl eq_refl Hin) "thumb" eq_refl).
    discriminate.
Defined.

(* --------------------------------------------------------------------- *)
(* Retrieval from a record without variants                              *)
(* --------------------------------------------------------------------- *)

(** C3: when the record stored under the asset id is not variant-bearing
    and the first path token is one of thumb, medium, large, original,
    handleRetrieval answers the 400 error "Variants not available for
    this asset type"; the answer is neither a streamed object nor a 404. *)
Theorem handleRetrieval_scalar_variant_request
    (env : Env.t) (fetch : Fetch) (assetId : string) (path : option string)
    (metadata : AssetMetadata.t) :
  Env.ASSET_MAP env !! assetId = Some metadata →
  hasVariants metadata = false →
  first_path_part path ∈ VARIANT_NAMES →
  handleRetrieval env fetch assetId path = variants_not_available assetId
  ∧ status_of (handleRetrieval env fetch assetId path) = Some 400%Z
  ∧ (∀ body headers,
       handleRetrieval env fetch assetId path ≠ new_Response body headers)
  ∧ (∀ payload,
       handleRetrieval env fetch assetId path ≠ json_error 404 payload).
Proof.
  intros Hget Hscalar Htoken.
  assert (Hvalid : isValidVariantName (first_path_part path) = true).
  { unfold isValidVariantName. apply existsb_exists.
    exists (first_path_part path). split; [by apply list_elem_of_In|].
    apply String.eqb_refl. }
  assert (Heq : handleRetrieval env fetch assetId path
                = variants_not_available assetId).
  { unfold handleRetrieval. by rewrite Hget, Hscalar, Hvalid. }
  rewrite Heq. repeat split; done.
Qed.

Lemma handleRetrieval_scalar_variant_request_witness :
  handleRetrieval env_pdf fetch_unreachable "D1" (Some "thumb/doc.pdf")
  = variants_not_available "D1".
Proof.
  apply (handleRetrieval_scalar_variant_request env_pdf fetch_unreachable
           "D1" (Some "thumb/doc.pdf") record_pdf).
  - vm_compute. reflexivity.
  - reflexivity.
  - vm_compute. apply list_elem_of_here.
Defined.

(* --------------------------------------------------------------------- *)
(* Validation of a registration body                                     *)
(* --------------------------------------------------------------------- *)

Lemma truthy_populated (x : option string) : truthy x = true ↔ populated x.
Proof.
  unfold populated. destruct x as [s|]; cbv [truthy truthy_optional truthy_string].
  - destruct (String.eqb_spec s ""); simpl.
    + split; [done | intros (? & [= <-] & ?); done].
    + split; [eauto | done].
  - split; [done | intros (? & ? & ?); done].
Qed.

Lemma truthy_not_populated (x : option string) :
  truthy x = false ↔ ¬ populated x.
Proof. rewrite <- truthy_populated. by destruct (truthy x). Qed.

Lemma typeof_number_is_Some (x : option Z) : typeof_number x = true ↔ is_Some x.
Proof. destruct x; simpl; split; try done; by intros [? ?]. Qed.

Lemma truthy_js_or {A} `{Truthy A} (a b : option A) :
  truthy (js_or a b) = truthy a || truthy b.
Proof. unfold js_or. by destruct (truthy a) eqn:E. Qed.

Lemma validateVariant_accepted (v : ImageVariant.t) :
  validateVariant v = true ↔ entry_accepted v.
Proof.
  unfold validateVariant, entry_accepted, has_dimensions.
  rewrite truthy_js_or, !andb_true_iff, orb_true_iff, !typeof_number_is_Some.
  rewrite <- !truthy_populated. tauto.
Qed.

Lemma first_invalid_variant_None (vs : Variants) :
  first_invalid_variant vs = None
  ↔ ∀ name v, (name, v) ∈ vs → entry_accepted v.
Proof.
  induction vs as [|[k w] rest IH]; simpl.
  - split; [intros _ ? ? H; by apply elem_of_nil in H | done].
  - destruct (validateVariant w) eqn:E; simpl.
    + rewrite IH. apply validateVariant_accepted in E. split.
      * intros H name v [[= -> ->]|Hin]%elem_of_cons; [done | by eapply H].
      * intros H name v Hin. eapply H. by right.
    + split; [done|]. intros H. exfalso.
      assert (Hw : entry_accepted w) by (apply (H k); left).
      apply validateVariant_accepted in Hw. congruence.
Qed.

Lemma first_invalid_variant_Some (vs : Variants) (name : string) :
  first_invalid_variant vs = Some name →
  ∃ v, (name, v) ∈ vs ∧ ¬ entry_accepted v.
Proof.
  induction vs as [|[k w] rest IH]; simpl; [done|].
  destruct (validateVariant w) eqn:E; simpl.
  - intros (v & Hin & Hv)%IH. exists v. split; [by right | done].
  - intros [= ->]. exists w. split; [left|].
    rewrite <- validateVariant_accepted. congruence.
Qed.

Lemma handleRegistration_rejected (now : string) (env : Env.t)
    (assetId : string) (body : RegistrationBody.t) :
  Validation.valid (validateRegistrationBody body) = false →
  handleRegistration now env assetId (Normal body)
  = (env, json_error 400
            (error_property (Validation.error (validateRegistrationBody body)))).
Proof. intros H. unfold handleRegistration. by rewrite H. Qed.

Lemma handleRegistration_accepted (now : string) (env : Env.t)
    (assetId : string) (body : RegistrationBody.t) :
  Validation.valid (validateRegistrationBody body) = true →
  handleRegistration now env assetId (Normal body)
  = (Env.put assetId (with_default_variant (build_metadata now body)) env,
     json_registered 201
       (registration_response assetId body
          (with_default_variant (build_metadata now body)))).
Proof. intros H. unfold handleRegistration. by rewrite H. Qed.

Lemma validate_image_with_variants (body : RegistrationBody.t) (vs : Variants) :
  truthy (RegistrationBody.is_image body) = true →
  RegistrationBody.variants body = Some vs →
  validateRegistrationBody body
  = match first_invalid_variant vs with
    | Some name => Validation.fail (invalid_variant_message name)
    | None =>
      if Nat.eqb (length (keys vs)) 0
      then Validation.fail "Image assets with variants must have at least one variant"
      else Validation.ok
    end.
Proof. intros Hi Hv. unfold validateRegistrationBody. by rewrite Hi, Hv. Qed.

Lemma with_default_variant_variants (m : AssetMetadata.t) :
  AssetMetadata.variants (with_default_variant m) = AssetMetadata.variants m.
Proof. unfold with_default_variant. by destruct (_ && _). Qed.

Lemma with_default_variant_hasVariants (m : AssetMetadata.t) :
  hasVariants (with_default_variant m) = hasVariants m.
Proof. unfold with_default_variant. by destruct (_ && _). Qed.

Lemma persisted_lookup (now : string) (env : Env.t) (assetId : string)
    (body : RegistrationBody.t) :
  Validation.valid (validateRegistrationBody body) = true →
  Env.ASSET_MAP (handleRegistration now env assetId (Normal body)).1 !! assetId
  = Some (with_default_variant (build_metadata now body)).
Proof.
  intros H. rewrite handleRegistration_accepted by done. simpl.
  apply lookup_insert_eq.
Qed.

Lemma validate_variants_valid_iff (body : RegistrationBody.t) (vs : Variants) :
  RegistrationBody.is_image body = Some true →
  RegistrationBody.variants body = Some vs →
  Validation.valid (validateRegistrationBody body) = true
  ↔ vs ≠ [] ∧ ∀ name v, (name, v) ∈ vs → entry_accepted v.
Proof.
  intros Hi Hv. rewrite (validate_image_with_variants body vs); [|by rewrite Hi|done].
  destruct (first_invalid_variant vs) as [bad|] eqn:E.
  - split; [done|]. intros [_ Hall].
    apply first_invalid_variant_Some in E as (v & Hin & Hbad).
    exfalso. by eapply Hbad, Hall.
  - pose proof (proj1 (first_invalid_variant_None vs) E) as Hall.
    destruct vs; simpl.
    + split; [done | by intros [? _]].
    + split; [done | done].
Qed.













Lemma handleRegistration_any_typed (now : string) (env : Env.t)
    (assetId : string) (request : completion RegistrationBody.t) :
  handleRegistration_any now env assetId
    (match request with
     | Normal body => Normal (body_typed body)
     | Thrown => Thrown
     end)
  = handleRegistration now env assetId request.
Proof. by destruct request. Qed.




(* --------------------------------------------------------------------- *)
(* An image body without variants                                        *)
(* --------------------------------------------------------------------- *)

(** C6, as stated, fails: an image body without variants that gives both
    url and r2_key is accepted. *)
Lemma validateRegistrationBody_image_accepts_both :
  ¬ (∀ body : RegistrationBody.t,
       RegistrationBody.is_image body = Some true →
       RegistrationBody.variants body = None →
       populated (RegistrationBody.url body) →
       populated (RegistrationBody.r2_key body) →
       Validation.valid (validateRegistrationBody body) = false).
Proof.
  intros H. specialize (H body_image_both eq_refl eq_refl).
  assert (Hfalse : true = false); [|discriminate Hfalse].
  apply H; eexists; split; done.
Qed.

(** C6 (amended): for a registration body with is_image true and no
    variants mapping, validation requires at least one storage
    location: a body with neither url nor r2_key is rejected with
    "Either url, r2_key, or variants is required", and a body with url
    or r2_key (one of them, or both) is accepted. *)
Theorem validateRegistrationBody_image_without_variants
    (body : RegistrationBody.t) :
  RegistrationBody.is_image body = Some true →
  RegistrationBody.variants body = None →
  (Validation.valid (validateRegistrationBody body) = true
   ↔ populated (RegistrationBody.url body)
     ∨ populated (RegistrationBody.r2_key body))
  ∧ (¬ populated (RegistrationBody.url body) →
     ¬ populated (RegistrationBody.r2_key body) →
     validateRegistrationBody body
     = Validation.fail "Either url, r2_key, or variants is required").
Proof.
  intros Hi Hv. unfold validateRegistrationBody. rewrite Hi, Hv.
  change (truthy (Some true)) with true. cbv [negb].
  split.
  - rewrite <- !truthy_populated.
    destruct (truthy (RegistrationBody.url body)),
      (truthy (RegistrationBody.r2_key body)); simpl;
      (split; [auto | done || (intros [|]; done)]).
  - intros Hu%truthy_not_populated Hk%truthy_not_populated.
    by rewrite Hu, Hk.
Qed.

Lemma validateRegistrationBody_image_without_variants_witness :
  Validation.valid (validateRegistrationBody body_image_both) = true.
Proof.
  apply (proj1 (validateRegistrationBody_image_without_variants
                  body_image_both eq_refl eq_refl)).
  left. eexists. split; [reflexivity | discriminate].
Defined.

(* --------------------------------------------------------------------- *)
(* Variant names at registration                                         *)
(* --------------------------------------------------------------------- *)

Lemma isValidVariantName_elem (name : string) :
  isValidVariantName name = true ↔ name ∈ VARIANT_NAMES.
Proof.
  unfold isValidVariantName. rewrite existsb_exists. split.
  - intros (x & Hin & ->%String.eqb_eq). by apply list_elem_of_In.
  - intros Hin. exists name. split; [by apply list_elem_of_In|].
    apply String.eqb_refl.
Qed.

Lemma isValidVariantName_not_elem (name : string) :
  isValidVariantName name = false ↔ name ∉ VARIANT_NAMES.
Proof. rewrite <- isValidVariantName_elem. by destruct (isValidVariantName name). Qed.

Lemma walk_chain_actual (vs : Variants) (chain : list VariantName)
    (v : ImageVariant.t) (actual : VariantName) :
  walk_chain vs chain = Some (v, actual) → actual ∈ chain.
Proof.
  intros (_ & i & Hi & _)%walk_chain_Some. by eapply list_elem_of_lookup_2.
Qed.

Lemma fallbackChains_recognized (target : VariantName)
    (chain : list VariantName) (name : VariantName) :
  fallbackChains target = Some chain → name ∈ chain → name ∈ VARIANT_NAMES.
Proof.
  unfold fallbackChains, VARIANT_NAMES.
  repeat (destruct (String.eqb target _);
          [intros [= <-]; rewrite !elem_of_cons, !elem_of_nil; tauto|]).
  done.
Qed.

(* Only the four names of the chains are ever served. *)
Lemma getVariantToServe_recognized (m : AssetMetadata.t)
    (target : VariantName) (v : ImageVariant.t) (actual : VariantName) :
  getVariantToServe m target = Normal (Some (v, actual)) →
  actual ∈ VARIANT_NAMES.
Proof.
  unfold getVariantToServe.
  destruct (AssetMetadata.variants m) as [vs|]; [|done].
  destruct (fallbackChains target) as [chain|] eqn:E; [|done].
  intros [= H]. apply walk_chain_actual in H.
  by eapply fallbackChains_recognized.
Qed.

Lemma build_metadata_hasVariants (now : string) (body : RegistrationBody.t)
    (vs : Variants) :
  RegistrationBody.is_image body = Some true →
  RegistrationBody.variants body = Some vs →
  vs ≠ [] →
  hasVariants (build_metadata now body) = true.
Proof.
  intros Hi Hv Hne. unfold hasVariants, build_metadata. simpl.
  rewrite Hi, Hv. by destruct vs.
Qed.

(** C7, as stated, fails: a body whose variants mapping has the key
    banner, outside thumb, medium, large, original, is accepted. *)
Lemma validateRegistrationBody_accepts_unrecognized_name :
  ¬ (∀ (body : RegistrationBody.t) (vs : Variants) (name : string),
       RegistrationBody.is_image body = Some true →
       RegistrationBody.variants body = Some vs →
       name ∈ keys vs →
       name ∉ VARIANT_NAMES →
       Validation.valid (validateRegistrationBody body) = false).
Proof.
  intros H.
  specialize (H body_banner _ "banner" eq_refl eq_refl (list_elem_of_here _ _)).
  assert (Hfalse : true = false); [|discriminate Hfalse].
  apply H. apply isValidVariantName_not_elem. reflexivity.
Qed.

(** C7 (amended): for a registration body with is_image true whose
    variants mapping contains a key outside thumb, medium, large,
    original, validation looks at the entries only, never at their
    names: the body is accepted exactly when every entry carries a
    location and its three numbers.  An accepted body is persisted with
    its variants mapping unchanged, the unrecognized key included; that
    key is never the variant served by the resolver. *)
Theorem validateRegistrationBody_ignores_variant_names
    (now : string) (env : Env.t) (assetId : string)
    (body : RegistrationBody.t) (vs : Variants) (name : string) :
  RegistrationBody.is_image body = Some true →
  RegistrationBody.variants body = Some vs →
  name ∈ keys vs →
  name ∉ VARIANT_NAMES →
  (Validation.valid (validateRegistrationBody body) = true
   ↔ ∀ n v, (n, v) ∈ vs → entry_accepted v)
  ∧ (Validation.valid (validateRegistrationBody body) = true →
     ∃ m, Env.ASSET_MAP (handleRegistration now env assetId (Normal body)).1
            !! assetId = Some m
       ∧ AssetMetadata.variants m = Some vs
       ∧ hasVariants m = true
       ∧ ∀ target v, getVariantToServe m target ≠ Normal (Some (v, name))).
Proof.
  intros Hi Hv Hname Hout.
  assert (Hne : vs ≠ []) by (intros ->; by apply elem_of_nil in Hname).
  pose proof (validate_variants_valid_iff body vs Hi Hv) as Hiff.
  split.
  - rewrite Hiff. split; [by intros [_ ?] | by split].
  - intros Hok. exists (with_default_variant (build_metadata now body)).
    split; [by apply persisted_lookup|].
    rewrite with_default_variant_variants, with_default_variant_hasVariants.
    split; [done|]. split; [by eapply build_metadata_hasVariants|].
    intros target v Hserved. apply Hout.
    by eapply getVariantToServe_recognized.
Qed.

Lemma validateRegistrationBody_ignores_variant_names_witness :
  Validation.valid (validateRegistrationBody body_banner) = true
  ∧ ∃ m, Env.ASSET_MAP
           (handleRegistration a_date env_empty "A4" (Normal body_banner)).1
           !! "A4" = Some m
      ∧ AssetMetadata.variants m = Some [("banner", medium_A1)].
Proof.
  assert (Hin : "banner" ∈ keys [("banner", medium_A1)])
    by apply list_elem_of_here.
  assert (Hout : "banner" ∉ VARIANT_NAMES)
    by (apply isValidVariantName_not_elem; reflexivity).
  destruct (validateRegistrationBody_ignores_variant_names a_date env_empty
              "A4" body_banner _ "banner" eq_refl eq_refl Hin Hout)
    as [_ Hpersist].
  split; [reflexivity|].
  destruct (Hpersist eq_refl) as (m & Hm & Hvs & _).
  exists m. split; [exact Hm | exact Hvs].
Defined.

(* --------------------------------------------------------------------- *)
(* The persisted default variant                                         *)
(* --------------------------------------------------------------------- *)

Lemma is_key_true (vs : Variants) (name : VariantName) :
  is_key vs name = true ↔ name ∈ keys vs.
Proof. apply bool_decide_eq_true. Qed.

Lemma is_key_false (vs : Variants) (name : VariantName) :
  is_key vs name = false ↔ name ∉ keys vs.
Proof. apply bool_decide_eq_false. Qed.

(* The computed default is a key as soon as one of the four names is. *)
Lemma calculateDefaultVariant_present (m : AssetMetadata.t) (vs : Variants) :
  AssetMetadata.variants m = Some vs →
  truthy (AssetMetadata.default_variant m) = false →
  (∃ n, n ∈ VARIANT_NAMES ∧ n ∈ keys vs) →
  calculateDefaultVariant m ∈ keys vs.
Proof.
  intros Hvs Hd (n & Hn & Hin).
  unfold calculateDefaultVariant, if_truthy. rewrite Hd, Hvs, !truthy_get.
  destruct (is_key vs "medium") eqn:Em; [by apply is_key_true|].
  destruct (is_key vs "original") eqn:Eo.
  { destruct (true && _ && _); [by apply is_key_true|].
    destruct (is_key vs "large") eqn:El; by apply is_key_true. }
  simpl. destruct (is_key vs "large") eqn:El; [by apply is_key_true|].
  destruct (is_key vs "thumb") eqn:Et; [by apply is_key_true|].
  exfalso. apply is_key_false in Em, Eo, El, Et.
  unfold VARIANT_NAMES in Hn.
  rewrite !elem_of_cons, elem_of_nil in Hn.
  destruct Hn as [->|[->|[->|[->|[]]]]]; done.
Qed.

Lemma calculateDefaultVariant_recognized (m : AssetMetadata.t) :
  truthy (AssetMetadata.default_variant m) = false →
  calculateDefaultVariant m ∈ VARIANT_NAMES.
Proof.
  intros Hd. unfold calculateDefaultVariant, if_truthy, VARIANT_NAMES.
  rewrite Hd.
  destruct (AssetMetadata.variants m) as [vs|];
    repeat match goal with
           | |- context [if ?b then _ else _] => destruct b
           end;
    repeat constructor.
Qed.

(* What registration persists for a body that passes validation. *)
Lemma with_default_variant_computed (m : AssetMetadata.t) :
  hasVariants m = true →
  truthy (AssetMetadata.default_variant m) = false →
  with_default_variant m
  = AssetMetadata.set_default_variant (Some (calculateDefaultVariant m)) m.
Proof. intros Hh Hd. unfold with_default_variant. by rewrite Hh, Hd. Qed.

Lemma with_default_variant_explicit (m : AssetMetadata.t) :
  truthy (AssetMetadata.default_variant m) = true →
  with_default_variant m = m.
Proof.
  intros Hd. unfold with_default_variant. rewrite Hd.
  by rewrite andb_false_r.
Qed.

(** C5, as stated, fails: a body with the single variant original and
    the explicit default_variant medium is accepted, and the persisted
    record names medium, which is not a key of its variants mapping.
    Without an explicit default it fails too when no key of the mapping
    is one of the four names: the computed default is the last resort
    original. *)
Lemma handleRegistration_persists_absent_default :
  ¬ (∀ (now : string) (env : Env.t) (assetId : string)
       (body : RegistrationBody.t) (m : AssetMetadata.t) (vs : Variants),
       Validation.valid (validateRegistrationBody body) = true →
       persisted now env assetId body = Some m →
       hasVariants m = true →
       AssetMetadata.variants m = Some vs →
       ∃ d, AssetMetadata.default_variant m = Some d ∧ d ∈ keys vs)
  ∧ (∃ m, persisted a_date env_empty "A5" body_explicit_medium = Some m
       ∧ hasVariants m = true
       ∧ AssetMetadata.variants m = Some [("original", original_A1)]
       ∧ AssetMetadata.default_variant m = Some "medium")
  ∧ (∃ m, persisted a_date env_empty "A4" body_banner = Some m
       ∧ hasVariants m = true
       ∧ AssetMetadata.variants m = Some [("banner", medium_A1)]
       ∧ AssetMetadata.default_variant m = Some "original").
Proof.
  assert (Hp : persisted a_date env_empty "A5" body_explicit_medium
               = Some (build_metadata a_date body_explicit_medium)).
  { unfold persisted. by rewrite persisted_lookup. }
  split; [|split].
  - intros H.
    destruct (H a_date env_empty "A5" body_explicit_medium
                (build_metadata a_date body_explicit_medium)
                [("original", original_A1)] eq_refl Hp eq_refl eq_refl)
      as (d & Hd & Hin).
    injection Hd as <-. apply get_Some in Hin. by destruct Hin.
  - eexists. split; [exact Hp|]. by repeat split.
  - eexists. split; [unfold persisted; by rewrite persisted_lookup|].
    by repeat split.
Qed.

(** C5 (amended): registration of a body with is_image true and a
    variants mapping that passes validation persists a variant-bearing
    record with the same mapping.  When the body gives no
    default_variant and the mapping has at least one of the keys thumb,
    medium, large, original, the persisted default_variant names a key
    present in the mapping.  A non-empty default_variant given by the
    body is persisted as given. *)
Theorem handleRegistration_default_variant
    (now : string) (env : Env.t) (assetId : string)
    (body : RegistrationBody.t) (vs : Variants) :
  RegistrationBody.is_image body = Some true →
  RegistrationBody.variants body = Some vs →
  Validation.valid (validateRegistrationBody body) = true →
  ∃ m, persisted now env assetId body = Some m
    ∧ hasVariants m = true
    ∧ AssetMetadata.variants m = Some vs
    ∧ (RegistrationBody.default_variant body = None →
       (∃ n, n ∈ VARIANT_NAMES ∧ n ∈ keys vs) →
       ∃ d, AssetMetadata.default_variant m = Some d ∧ d ∈ keys vs)
    ∧ (∀ d, RegistrationBody.default_variant body = Some d → d ≠ "" →
       AssetMetadata.default_variant m = Some d).
Proof.
  intros Hi Hv Hok.
  assert (Hne : vs ≠ []).
  { by apply (validate_variants_valid_iff body vs Hi Hv). }
  pose proof (build_metadata_hasVariants now body vs Hi Hv Hne) as Hhas.
  exists (with_default_variant (build_metadata now body)).
  split; [by apply persisted_lookup|].
  rewrite with_default_variant_hasVariants, with_default_variant_variants.
  split; [done|]. split; [done|]. split.
  - intros Hnone Hrec.
    assert (Hd : truthy (AssetMetadata.default_variant (build_metadata now body))
                 = false) by (simpl; by rewrite Hnone).
    rewrite with_default_variant_computed by done.
    eexists. split; [reflexivity|].
    by apply calculateDefaultVariant_present.
  - intros d Hd Hnonempty.
    rewrite with_default_variant_explicit; [done|].
    simpl. rewrite Hd. apply truthy_populated. by exists d.
Qed.

Lemma handleRegistration_default_variant_witness :
  ∃ m, persisted a_date env_empty "A1" body_A1 = Some m
    ∧ AssetMetadata.default_variant m = Some "medium".
Proof.
  destruct (handleRegistration_default_variant a_date env_empty "A1"
              body_A1 variants_A1 eq_refl eq_refl eq_refl)
    as (m & Hm & _ & _ & _ & _).
  exists m. split; [exact Hm|].
  vm_compute in Hm. injection Hm as <-. reflexivity.
Defined.

(* --------------------------------------------------------------------- *)
(* Registration followed by retrieval                                    *)
(* --------------------------------------------------------------------- *)


Lemma buildAssetHeaders_X_Variant (contentType : string)
    (contentLength : option Z) (assetId : string)
    (actualVariant : option VariantName)
    (variantDimensions originalDimensions : option Dimensions) :
  header (buildAssetHeaders contentType contentLength assetId actualVariant
            variantDimensions originalDimensions) "X-Variant"
  = if_truthy actualVariant.
Proof.
  unfold buildAssetHeaders, if_truthy.
  destruct actualVariant as [actual|].
  - change (truthy (Some actual)) with (truthy actual).
    destruct (truthy contentLength), (truthy actual),
      variantDimensions, originalDimensions; reflexivity.
  - destruct (truthy contentLength), variantDimensions, originalDimensions;
      reflexivity.
Qed.

Lemma serve_variant_X_Variant (env : Env.t) (fetch : Fetch) (assetId : string)
    (m : AssetMetadata.t) (v : ImageVariant.t) (actual : VariantName)
    (body : option Body) (headers : Headers) :
  serve_variant env fetch assetId m v actual = new_Response body headers →
  header headers "X-Variant" = if_truthy (Some actual).
Proof.
  unfold serve_variant.
  destruct (getVariantStorage v) as [[[] location]|]; [| |done].
  - destruct (fetch location) as [response|]; [|done].
    destruct (FetchResponse.ok response); [|done].
    intros [= _ <-]. apply buildAssetHeaders_X_Variant.
  - destruct (Env.ARKE_ARCHIVE env !! location); [|done].
    intros [= _ <-]. apply buildAssetHeaders_X_Variant.
Qed.

Lemma serve_original_X_Variant (env : Env.t) (fetch : Fetch) (assetId : string)
    (m : AssetMetadata.t) (body : option Body) (headers : Headers) :
  serve_original env fetch assetId m = new_Response body headers →
  header headers "X-Variant" = None.
Proof.
  unfold serve_original.
  destruct (AssetMetadata.storage_type m).
  - destruct (if_truthy (AssetMetadata.r2_key m)),
      (if_truthy (AssetMetadata.url m)) as [location|]; try done;
      (destruct (fetch location) as [response|]; [|done];
       destruct (FetchResponse.ok response); [|done];
       intros [= _ <-]; apply buildAssetHeaders_X_Variant).
  - destruct (if_truthy (AssetMetadata.r2_key m)) as [key|]; [|done].
    destruct (Env.ARKE_ARCHIVE env !! key); [|done].
    intros [= _ <-]. apply buildAssetHeaders_X_Variant.
Qed.

Lemma truthy_recognized (name : VariantName) :
  name ∈ VARIANT_NAMES → if_truthy (Some name) = Some name.
Proof.
  unfold VARIANT_NAMES. rewrite !elem_of_cons, elem_of_nil.
  intros [->|[->|[->|[->|[]]]]]; reflexivity.
Qed.



(* --------------------------------------------------------------------- *)
(* Records that are not images                                           *)
(* --------------------------------------------------------------------- *)

Lemma not_image_hasVariants (m : AssetMetadata.t) :
  truthy (AssetMetadata.is_image m) = false → hasVariants m = false.
Proof. intros H. unfold hasVariants. by rewrite H. Qed.

Lemma handleRetrieval_scalar (env : Env.t) (fetch : Fetch) (assetId : string)
    (path : option string) (m : AssetMetadata.t) :
  Env.ASSET_MAP env !! assetId = Some m →
  hasVariants m = false →
  handleRetrieval env fetch assetId path
  = if isValidVariantName (first_path_part path)
    then variants_not_available assetId
    else serve_original env fetch assetId m.
Proof. intros Hget Hs. unfold handleRetrieval. by rewrite Hget, Hs. Qed.

(* What serve_original reads: the location that storage_type names. *)
Lemma serve_original_r2 (env : Env.t) (fetch : Fetch) (assetId : string)
    (m : AssetMetadata.t) (key : string) :
  AssetMetadata.storage_type m = storage_r2 →
  AssetMetadata.r2_key m = Some key → key ≠ "" →
  match Env.ARKE_ARCHIVE env !! key with
  | None => serve_original env fetch assetId m
            = json_error 404 [("error", "Asset not found in R2 storage")]
  | Some r2Object =>
    ∃ h, serve_original env fetch assetId m
         = new_Response (Some (R2Object.body r2Object)) h
  end.
Proof.
  intros Hs Hk Hne. unfold serve_original. rewrite Hs.
  assert (Ht : if_truthy (AssetMetadata.r2_key m) = Some key).
  { unfold if_truthy. rewrite Hk.
    by rewrite (proj2 (truthy_populated (Some key)))
      by (by exists key). }
  rewrite Ht. destruct (Env.ARKE_ARCHIVE env !! key); by eauto.
Qed.

Lemma serve_original_url (env : Env.t) (fetch : Fetch) (assetId : string)
    (m : AssetMetadata.t) (location : string) :
  AssetMetadata.storage_type m = storage_url →
  AssetMetadata.url m = Some location → location ≠ "" →
  match fetch location with
  | Thrown => serve_original env fetch assetId m = internal_server_error
  | Normal upstream =>
    if FetchResponse.ok upstream
    then ∃ h, serve_original env fetch assetId m
              = new_Response (FetchResponse.body upstream) h
    else serve_original env fetch assetId m
         = json_error 503 [("error", "Failed to fetch asset from storage")]
  end.
Proof.
  intros Hs Hu Hne. unfold serve_original. rewrite Hs.
  assert (Ht : if_truthy (AssetMetadata.url m) = Some location).
  { unfold if_truthy. rewrite Hu.
    by rewrite (proj2 (truthy_populated (Some location)))
      by (by exists location). }
  rewrite Ht.
  destruct (if_truthy (AssetMetadata.r2_key m));
    (destruct (fetch location) as [upstream|]; [|done]);
    (destruct (FetchResponse.ok upstream); simpl; by eauto).
Qed.

Lemma serve_original_no_location (env : Env.t) (fetch : Fetch)
    (assetId : string) (m : AssetMetadata.t) :
  (AssetMetadata.storage_type m = storage_r2
   ∧ ¬ populated (AssetMetadata.r2_key m))
  ∨ (AssetMetadata.storage_type m = storage_url
     ∧ ¬ populated (AssetMetadata.url m)) →
  serve_original env fetch assetId m = missing_storage_configuration.
Proof.
  unfold serve_original, if_truthy.
  intros [[-> Hno%truthy_not_populated]|[-> Hno%truthy_not_populated]];
    rewrite Hno; [done|].
  by destruct (truthy (AssetMetadata.r2_key m)),
    (AssetMetadata.r2_key m).
Qed.

(** C10: the variants mapping of a record whose is_image is false or
    absent is never consulted.  At registration, replacing the mapping
    of such a body by any other, or by none, changes neither the result
    of validation nor the response; validation is the rule for
    non-image assets, exactly one of url and r2_key; an accepted body
    is persisted as a record that is not variant-bearing and that has
    its primary location: the URL of the body with storage_type url, or
    else its R2 key with storage_type r2.  At retrieval, replacing the
    mapping of the stored record changes nothing in the response: a
    first path token that is a variant name is answered with the 400
    error, and any other request is answered from the primary location
    of the record alone.  With storage_type r2 and a non-empty r2_key
    the object under that key is streamed, or 404 answered when the
    bucket has none; with storage_type url and a non-empty url that URL
    is fetched, its body streamed, 503 answered when the fetch is not ok
    and 500 when it fails; a stored record that lacks the location its
    storage_type names (registration persists none) is answered 500,
    whatever its other location and its variants.  A streamed response
    announces no variant. *)
Theorem not_image_variants_never_consulted
    (now : string) (env : Env.t) (fetch : Fetch) (assetId : string)
    (body : RegistrationBody.t) (m : AssetMetadata.t) (path : option string)
    (vs : option Variants) :
  (truthy (RegistrationBody.is_image body) = false →
     validateRegistrationBody (RegistrationBody.set_variants vs body)
     = validateRegistrationBody body
     ∧ (Validation.valid
          (validateRegistrationBody (RegistrationBody.set_variants vs body))
        = true
        ↔ (populated (RegistrationBody.url body)
           ∧ ¬ populated (RegistrationBody.r2_key body))
          ∨ (¬ populated (RegistrationBody.url body)
             ∧ populated (RegistrationBody.r2_key body)))
     ∧ (handleRegistration now env assetId
          (Normal (RegistrationBody.set_variants vs body))).2
       = (handleRegistration now env assetId (Normal body)).2
     ∧ (Validation.valid (validateRegistrationBody body) = true →
        ∃ m', persisted now env assetId (RegistrationBody.set_variants vs body)
              = Some m'
          ∧ AssetMetadata.variants m' = vs
          ∧ hasVariants m' = false
          ∧ AssetMetadata.url m' = RegistrationBody.url body
          ∧ AssetMetadata.r2_key m' = RegistrationBody.r2_key body
          ∧ ((AssetMetadata.storage_type m' = storage_url
              ∧ populated (AssetMetadata.url m'))
             ∨ (AssetMetadata.storage_type m' = storage_r2
                ∧ populated (AssetMetadata.r2_key m')))))
  ∧ (truthy (AssetMetadata.is_image m) = false →
     Env.ASSET_MAP env !! assetId = Some m →
     let response := handleRetrieval env fetch assetId path in
     handleRetrieval (Env.put assetId (AssetMetadata.set_variants vs m) env)
       fetch assetId path
     = response
     ∧ (first_path_part path ∈ VARIANT_NAMES →
        response = variants_not_available assetId)
     ∧ (first_path_part path ∉ VARIANT_NAMES →
        response = serve_original env fetch assetId m
        ∧ (∀ key, AssetMetadata.storage_type m = storage_r2 →
             AssetMetadata.r2_key m = Some key → key ≠ "" →
             match Env.ARKE_ARCHIVE env !! key with
             | None =>
               response
               = json_error 404 [("error", "Asset not found in R2 storage")]
             | Some r2Object =>
               ∃ h, response = new_Response (Some (R2Object.body r2Object)) h
             end)
        ∧ (∀ location, AssetMetadata.storage_type m = storage_url →
             AssetMetadata.url m = Some location → location ≠ "" →
             match fetch location with
             | Thrown => response = internal_server_error
             | Normal upstream =>
               if FetchResponse.ok upstream
               then ∃ h, response
                         = new_Response (FetchResponse.body upstream) h
               else response
                    = json_error 503
                        [("error", "Failed to fetch asset from storage")]
             end)
        ∧ ((AssetMetadata.storage_type m = storage_r2
            ∧ ¬ populated (AssetMetadata.r2_key m))
           ∨ (AssetMetadata.storage_type m = storage_url
              ∧ ¬ populated (AssetMetadata.url m)) →
           response = missing_storage_configuration))
     ∧ (∀ b h, response = new_Response b h → header h "X-Variant" = None)).
Proof.
  split.
  - intros Hi.
    assert (Hval : validateRegistrationBody (RegistrationBody.set_variants vs body)
                   = validateRegistrationBody body).
    { unfold validateRegistrationBody. simpl. by rewrite Hi. }
    assert (Hhas : ∀ b, truthy (RegistrationBody.is_image b) = false →
                     hasVariants (build_metadata now b) = false).
    { intros b Hb. apply not_image_hasVariants. simpl.
      rewrite truthy_js_or, Hb. done. }
    assert (Hwith : ∀ b, truthy (RegistrationBody.is_image b) = false →
                      with_default_variant (build_metadata now b)
                      = build_metadata now b).
    { intros b Hb. unfold with_default_variant. by rewrite Hhas. }
    assert (Hrule : Validation.valid (validateRegistrationBody body) = true
                    ↔ (populated (RegistrationBody.url body)
                       ∧ ¬ populated (RegistrationBody.r2_key body))
                      ∨ (¬ populated (RegistrationBody.url body)
                         ∧ populated (RegistrationBody.r2_key body))).
    { unfold validateRegistrationBody. rewrite Hi.
      rewrite <- !truthy_populated.
      destruct (truthy (RegistrationBody.url body)),
        (truthy (RegistrationBody.r2_key body)); simpl;
        intuition congruence. }
    split; [done|]. split; [|split].
    + by rewrite Hval.
    + unfold handleRegistration. rewrite Hval.
      destruct (Validation.valid (validateRegistrationBody body)); simpl; [|done].
      f_equal. unfold registration_response.
      rewrite !Hwith, !Hhas by done. reflexivity.
    + intros Hok. eexists. split.
      { unfold persisted. apply persisted_lookup. by rewrite Hval. }
      rewrite Hwith by done. split; [reflexivity|].
      split; [by apply Hhas|]. split; [reflexivity|]. split; [reflexivity|].
      simpl.
      destruct (proj1 Hrule Hok) as [[Hu _]|[Hu Hk]].
      * left. by rewrite (proj2 (truthy_populated _) Hu).
      * right. by rewrite (proj2 (truthy_not_populated _) Hu).
  - intros Hi Hget response.
    pose proof (not_image_hasVariants m Hi) as Hs.
    unfold response.
    rewrite (handleRetrieval_scalar env fetch assetId path m Hget Hs).
    split; [|split; [|split]].
    + rewrite (handleRetrieval_scalar _ fetch assetId path
                 (AssetMetadata.set_variants vs m)).
      * reflexivity.
      * simpl. apply lookup_insert_eq.
      * by apply not_image_hasVariants.
    + intros Ht%isValidVariantName_elem. by rewrite Ht.
    + intros Ht%isValidVariantName_not_elem. rewrite Ht.
      split; [done|]. split; [|split].
      * apply serve_original_r2.
      * apply serve_original_url.
      * apply serve_original_no_location.
    + intros b h. destruct (isValidVariantName (first_path_part path)); [done|].
      apply serve_original_X_Variant.
Qed.

Lemma not_image_variants_never_consulted_witness :
  Validation.valid
    (validateRegistrationBody
       (RegistrationBody.set_variants (Some [("thumb", variant_malformed)])
          body_pdf)) = true
  ∧ handleRetrieval env_pdf fetch_unreachable "D1" (Some "medium")
    = variants_not_available "D1"
  ∧ ∃ h, handleRetrieval env_pdf fetch_page "D1" (Some "doc.pdf")
         = new_Response (Some "page bytes") h.
Proof.
  destruct (not_image_variants_never_consulted a_date env_pdf
              fetch_unreachable "D1" body_pdf record_pdf (Some "medium")
              (Some [("thumb", variant_malformed)])) as [Hreg Hget].
  destruct (not_image_variants_never_consulted a_date env_pdf
              fetch_page "D1" body_pdf record_pdf (Some "doc.pdf")
              (Some [("thumb", variant_malformed)])) as [_ Hdoc].
  split; [|split].
  - destruct (Hreg eq_refl) as (-> & _ & _ & _). reflexivity.
  - destruct (Hget eq_refl) as (_ & Htoken & _ & _).
    + vm_compute. reflexivity.
    + apply Htoken. apply isValidVariantName_elem. reflexivity.
  - destruct (Hdoc eq_refl) as (_ & _ & Hother & _).
    + vm_compute. reflexivity.
    + destruct Hother as (_ & _ & Hurl & _).
      * apply isValidVariantName_not_elem. reflexivity.
      * apply (Hurl "https://origin.example/doc.pdf");
          [reflexivity | reflexivity | discriminate].
Defined.

(* A record stored with storage_type r2 and only a URL has no primary
   location: the URL is not read. *)
Example r2_record_with_url_only :
  handleRetrieval
    (Env.mk {[ "D2" := AssetMetadata.mk storage_r2
                         (Some "https://origin.example/doc.pdf") None None
                         None None None None None None None None ]} ∅)
    fetch_page "D2" None
  = missing_storage_configuration.
Proof. vm_compute. reflexivity. Qed.

(* --------------------------------------------------------------------- *)
(* The scenario of the specification, end to end                         *)
(* --------------------------------------------------------------------- *)

Example A1_persisted_default :
  AssetMetadata.default_variant <$> (Env.ASSET_MAP env_A1 !! "A1")
  = Some (Some "medium").
Proof. vm_compute. reflexivity. Qed.

Example A1_get_default :
  streamed (handleRetrieval env_A1 fetch_unreachable "A1" None)
  = Some (Some "medium bytes", Some "medium").
Proof. vm_compute. reflexivity. Qed.

Example A1_get_thumb :
  streamed (handleRetrieval env_A1 fetch_unreachable "A1" (Some "thumb"))
  = Some (Some "medium bytes", Some "medium").
Proof. vm_compute. reflexivity. Qed.

Example A1_get_original :
  streamed (handleRetrieval env_A1 fetch_unreachable "A1"
              (Some "original/photo.jpg"))
  = Some (Some "original bytes", Some "original").
Proof. vm_compute. reflexivity. Qed.

Example A1_get_vanity_name :
  streamed (handleRetrieval env_A1 fetch_unreachable "A1" (Some "photo.jpg"))
  = Some (Some "medium bytes", Some "medium").
Proof. vm_compute. reflexivity. Qed.

Example large_falls_back_to_original :
  getVariantToServe
    (AssetMetadata.set_variants (Some [("original", original_A1)]) record_A1)
    "large"
  = Normal (Some (original_A1, "original")).
Proof. reflexivity. Qed.

Example only_thumb_is_the_default :
  calculateDefaultVariant
    (AssetMetadata.set_default_variant None
       (AssetMetadata.set_variants (Some [("thumb", medium_A1)]) record_A1))
  = "thumb".
Proof. reflexivity. Qed.

Example banner_is_not_found :
  handleRetrieval
    (handleRegistration a_date env_archive "A4" (Normal body_banner)).1
    fetch_unreachable "A4" None
  = no_suitable_variant "original".
Proof. vm_compute. reflexivity. Qed.

(* ===================================================================== *)
(* Further properties of the resolver                                    *)
(* ===================================================================== *)

Lemma get_elem_of (vs : Variants) (name : string) (v : ImageVariant.t) :
  get vs name = Some v → (name, v) ∈ vs.
Proof.
  induction vs as [|[k w] rest IH]; simpl; [done|].
  destruct (String.eqb_spec k name) as [->|Hne].
  - intros [= ->]. left.
  - intros H. right. by apply IH.
Qed.

Lemma get_NoDup (vs : Variants) (name : string) (v : ImageVariant.t) :
  NoDup (keys vs) → (name, v) ∈ vs → get vs name = Some v.
Proof.
  induction vs as [|[k w] rest IH]; simpl.
  - intros _ H. by apply elem_of_nil in H.
  - intros [Hk Hnd]%NoDup_cons [[= -> ->]|Hin]%elem_of_cons.
    + by rewrite String.eqb_refl.
    + destruct (String.eqb_spec k name) as [->|Hne]; [|by apply IH].
      exfalso. apply Hk. unfold keys.
      apply list_elem_of_fmap. by exists (name, v).
Qed.

Lemma recognized_cases (name : VariantName) :
  name ∈ VARIANT_NAMES →
  name = "thumb" ∨ name = "medium" ∨ name = "large" ∨ name = "original".
Proof.
  unfold VARIANT_NAMES. rewrite !elem_of_cons, elem_of_nil. tauto.
Qed.

(** X1: a requested variant that the record holds is served itself: for
    each of thumb, medium, large, original present in the variants
    mapping, getVariantToServe returns that entry and reports the
    requested name as the actual variant. *)
Theorem getVariantToServe_exact_match
    (m : AssetMetadata.t) (vs : Variants) (target : VariantName)
    (v : ImageVariant.t) :
  AssetMetadata.variants m = Some vs →
  target ∈ VARIANT_NAMES →
  get vs target = Some v →
  getVariantToServe m target = Normal (Some (v, target)).
Proof.
  intros Hvs Ht Hv. unfold getVariantToServe. rewrite Hvs.
  destruct (recognized_cases target Ht) as [-> | [-> | [-> | ->]]]; simpl;
    by rewrite if_truthy_get, Hv.
Qed.

Lemma getVariantToServe_exact_match_witness :
  getVariantToServe record_A1 "original"
  = Normal (Some (original_A1, "original")).
Proof.
  apply (getVariantToServe_exact_match record_A1 variants_A1).
  - reflexivity.
  - apply isValidVariantName_elem. reflexivity.
  - reflexivity.
Defined.

(** X2: original is the universal fallback: on a record whose variants
    mapping holds original, getVariantToServe finds a variant for every
    one of the four targets, and when neither the target nor medium is
    present the variant found is original. *)
Theorem getVariantToServe_original_fallback
    (m : AssetMetadata.t) (vs : Variants) (target : VariantName)
    (vo : ImageVariant.t) :
  AssetMetadata.variants m = Some vs →
  target ∈ VARIANT_NAMES →
  get vs "original" = Some vo →
  (∃ v actual, getVariantToServe m target = Normal (Some (v, actual)))
  ∧ (target ∉ keys vs → "medium" ∉ keys vs →
     getVariantToServe m target = Normal (Some (vo, "original"))).
Proof.
  intros Hvs Ht Ho. unfold getVariantToServe. rewrite Hvs.
  destruct (recognized_cases target Ht) as [-> | [-> | [-> | ->]]]; simpl;
    rewrite !if_truthy_get, ?Ho; split;
    try (intros Ha%get_None Hm%get_None; by rewrite ?Ha, ?Hm);
    try (intros Ha Hm%get_None; by rewrite ?Hm);
    repeat match goal with
           | |- context [match get vs ?n with _ => _ end] =>
               destruct (get vs n)
           end; eauto.
Qed.

Lemma getVariantToServe_original_fallback_witness :
  getVariantToServe
    (AssetMetadata.set_variants (Some [("original", original_A1)]) record_A1)
    "large"
  = Normal (Some (original_A1, "original")).
Proof.
  assert (Ht : "large" ∈ VARIANT_NAMES)
    by (apply isValidVariantName_elem; reflexivity).
  apply (proj2 (getVariantToServe_original_fallback
                  (AssetMetadata.set_variants
                     (Some [("original", original_A1)]) record_A1)
                  [("original", original_A1)] "large" original_A1
                  eq_refl Ht eq_refl));
    apply get_None; reflexivity.
Defined.

(** X3: what the resolver can return.  A variant returned by
    getVariantToServe is the entry of the record's mapping under the
    reported name, the target is one of the four names, and the reported
    name is the target itself or, for a target other than original, one
    of medium and original: thumb and large are served only when asked
    for, and a request for original is never answered with another
    variant. *)
Theorem getVariantToServe_served
    (m : AssetMetadata.t) (target : VariantName)
    (v : ImageVariant.t) (actual : VariantName) :
  getVariantToServe m target = Normal (Some (v, actual)) →
  (∃ vs, AssetMetadata.variants m = Some vs
      ∧ get vs actual = Some v ∧ (actual, v) ∈ vs)
  ∧ target ∈ VARIANT_NAMES
  ∧ (actual = target
     ∨ (target ≠ "original" ∧ (actual = "medium" ∨ actual = "original"))).
Proof.
  unfold getVariantToServe.
  destruct (AssetMetadata.variants m) as [vs|]; [|done].
  destruct (fallbackChains target) as [chain|] eqn:E; [|done].
  intros [= H].
  assert (Ht : target ∈ VARIANT_NAMES).
  { apply isValidVariantName_elem, fallbackChains_valid. by rewrite E. }
  apply walk_chain_Some in H as [Hget Hfirst].
  split; [exists vs; by eauto using get_elem_of|]. split; [done|].
  destruct Hfirst as (i & Hi & _ & _).
  apply list_elem_of_lookup_2 in Hi.
  destruct (recognized_cases target Ht) as [-> | [-> | [-> | ->]]];
    injection E as <-; rewrite !elem_of_cons, elem_of_nil in Hi;
    destruct Hi as [->|Hi]; auto;
    right; (split; [done|]); tauto.
Qed.

Lemma getVariantToServe_served_witness :
  (∃ vs, AssetMetadata.variants record_A1 = Some vs
      ∧ get vs "medium" = Some medium_A1 ∧ ("medium", medium_A1) ∈ vs)
  ∧ "thumb" ∈ VARIANT_NAMES
  ∧ ("medium" = "thumb"
     ∨ ("thumb" ≠ "original" ∧ ("medium" = "medium" ∨ "medium" = "original"))).
Proof.
  apply (getVariantToServe_served record_A1 "thumb" medium_A1 "medium").
  reflexivity.
Defined.

Lemma get_Permutation (vs vs' : Variants) (name : string) :
  NoDup (keys vs) → vs ≡ₚ vs' → get vs' name = get vs name.
Proof.
  intros Hnd Hperm.
  assert (Hnd' : NoDup (keys vs')).
  { unfold keys. by rewrite <- Hperm. }
  destruct (get vs name) as [v|] eqn:E.
  - apply get_NoDup; [done|]. rewrite <- Hperm. by apply get_elem_of.
  - apply get_None. apply get_None in E. unfold keys in *. by rewrite <- Hperm.
Qed.

Lemma walk_chain_ext (vs vs' : Variants) (chain : list VariantName) :
  (∀ name, get vs' name = get vs name) →
  walk_chain vs' chain = walk_chain vs chain.
Proof.
  intros H. induction chain as [|n rest IH]; simpl; [done|].
  by rewrite H, IH.
Qed.

(** X4: the order of the entries of the variants mapping is irrelevant
    to the resolver: for a mapping with distinct keys, listing its
    entries in another order changes neither whether the record is
    variant-bearing, nor the default variant computed, nor the result of
    getVariantToServe for any target. *)
Theorem variants_order_irrelevant
    (m : AssetMetadata.t) (vs vs' : Variants) :
  AssetMetadata.variants m = Some vs →
  NoDup (keys vs) →
  vs ≡ₚ vs' →
  hasVariants (AssetMetadata.set_variants (Some vs') m) = hasVariants m
  ∧ calculateDefaultVariant (AssetMetadata.set_variants (Some vs') m)
    = calculateDefaultVariant m
  ∧ ∀ target,
      getVariantToServe (AssetMetadata.set_variants (Some vs') m) target
      = getVariantToServe m target.
Proof.
  intros Hvs Hnd Hperm.
  pose proof (get_Permutation vs vs') as Hget.
  split; [|split].
  - unfold hasVariants. simpl. rewrite Hvs. unfold keys.
    by rewrite !length_fmap, Hperm.
  - unfold calculateDefaultVariant. simpl. rewrite Hvs.
    by rewrite !Hget.
  - intros target. unfold getVariantToServe. simpl. rewrite Hvs.
    destruct (fallbackChains target); [|done].
    f_equal. apply walk_chain_ext. intros name. by apply Hget.
Qed.

Lemma variants_order_irrelevant_witness :
  getVariantToServe
    (AssetMetadata.set_variants
       (Some [("original", original_A1); ("medium", medium_A1)]) record_A1)
    "thumb"
  = getVariantToServe record_A1 "thumb".
Proof.
  apply (variants_order_irrelevant record_A1 variants_A1
           [("original", original_A1); ("medium", medium_A1)] eq_refl).
  - apply NoDup_cons_2; [|apply NoDup_singleton].
    rewrite list_elem_of_singleton. discriminate.
  - apply Permutation_swap.
Defined.

(* ===================================================================== *)
(* Further properties of default-variant computation                     *)
(* ===================================================================== *)

(** X5: without an explicit default, calculateDefaultVariant returns one
    of thumb, medium, large, original, and the resolver asked for that
    variant completes without throwing. *)
Theorem calculateDefaultVariant_resolvable (m : AssetMetadata.t) :
  truthy (AssetMetadata.default_variant m) = false →
  calculateDefaultVariant m ∈ VARIANT_NAMES
  ∧ ∃ r, getVariantToServe m (calculateDefaultVariant m) = Normal r.
Proof.
  intros Hd.
  pose proof (calculateDefaultVariant_recognized m Hd) as Hrec.
  split; [done|].
  apply isValidVariantName_elem, fallbackChains_valid in Hrec as [chain Hc].
  unfold getVariantToServe.
  destruct (AssetMetadata.variants m); [|by eauto].
  rewrite Hc. by eauto.
Qed.

Lemma calculateDefaultVariant_resolvable_witness :
  calculateDefaultVariant record_width_zero ∈ VARIANT_NAMES
  ∧ ∃ r, getVariantToServe record_width_zero
           (calculateDefaultVariant record_width_zero) = Normal r.
Proof.
  apply (calculateDefaultVariant_resolvable record_width_zero). reflexivity.
Defined.

(** X6: the step of registration that fills in the default variant is
    stable: it leaves calculateDefaultVariant unchanged, applying it
    twice is applying it once, it changes no field but default_variant,
    and after it a variant-bearing record always has a non-empty
    default_variant. *)
Theorem with_default_variant_stable (m : AssetMetadata.t) :
  calculateDefaultVariant (with_default_variant m) = calculateDefaultVariant m
  ∧ with_default_variant (with_default_variant m) = with_default_variant m
  ∧ AssetMetadata.set_default_variant None (with_default_variant m)
    = AssetMetadata.set_default_variant None m
  ∧ (hasVariants m = true →
     truthy (AssetMetadata.default_variant (with_default_variant m)) = true).
Proof.
  destruct (truthy (AssetMetadata.default_variant m)) eqn:Hd.
  - rewrite !with_default_variant_explicit by done. by repeat split.
  - destruct (hasVariants m) eqn:Hh.
    + pose proof (calculateDefaultVariant_recognized m Hd) as Hrec.
      apply truthy_recognized in Hrec.
      assert (Ht : truthy (Some (calculateDefaultVariant m)) = true).
      { unfold if_truthy in Hrec.
        by destruct (truthy (Some (calculateDefaultVariant m))). }
      rewrite with_default_variant_computed by done.
      split; [|split; [|split]].
      * unfold calculateDefaultVariant at 1. simpl. by rewrite Hrec.
      * by apply with_default_variant_explicit.
      * reflexivity.
      * done.
    + assert (Hw : with_default_variant m = m).
      { unfold with_default_variant. by rewrite Hh. }
      rewrite !Hw. by repeat split.
Qed.

(* ===================================================================== *)
(* Storage of a variant                                                  *)
(* ===================================================================== *)

(** X7: getVariantStorage returns the R2 key whenever r2_key is
    non-empty, even when a URL is given too; it returns the URL when
    only url is non-empty; it returns null exactly when neither is, and
    so never for an entry that validateVariant accepts. *)
Theorem getVariantStorage_location (v : ImageVariant.t) :
  (∀ key, ImageVariant.r2_key v = Some key → key ≠ "" →
     getVariantStorage v = Some (storage_r2, key))
  ∧ (∀ location, ¬ populated (ImageVariant.r2_key v) →
       ImageVariant.url v = Some location → location ≠ "" →
       getVariantStorage v = Some (storage_url, location))
  ∧ (getVariantStorage v = None
     ↔ ¬ populated (ImageVariant.r2_key v) ∧ ¬ populated (ImageVariant.url v))
  ∧ (validateVariant v = true → is_Some (getVariantStorage v)).
Proof.
  assert (Hnone : getVariantStorage v = None
     ↔ ¬ populated (ImageVariant.r2_key v) ∧ ¬ populated (ImageVariant.url v)).
  { rewrite <- !truthy_not_populated. unfold getVariantStorage, if_truthy.
    destruct (truthy (ImageVariant.r2_key v)) eqn:Ek.
    - destruct (ImageVariant.r2_key v); [|done]. split; [done | by intros [? _]].
    - destruct (truthy (ImageVariant.url v)) eqn:Eu.
      + destruct (ImageVariant.url v); [|done]. split; [done | by intros [_ ?]].
      + done. }
  split; [|split; [|split]]; [| |done|].
  - intros key Hk Hne. unfold getVariantStorage, if_truthy.
    rewrite (proj2 (truthy_populated _)) by by exists key. by rewrite Hk.
  - intros location Hk%truthy_not_populated Hu Hne.
    unfold getVariantStorage, if_truthy. rewrite Hk.
    rewrite (proj2 (truthy_populated _)) by by exists location. by rewrite Hu.
  - intros [[Hk|Hu] _]%validateVariant_accepted;
      apply not_eq_None_Some; rewrite Hnone; tauto.
Qed.

Lemma getVariantStorage_location_witness :
  getVariantStorage variant_both_locations = Some (storage_r2, "A2/medium.jpg")
  ∧ is_Some (getVariantStorage medium_A1).
Proof.
  destruct (getVariantStorage_location variant_both_locations)
    as (Hkey & _ & _ & _).
  destruct (getVariantStorage_location medium_A1) as (_ & _ & _ & Hvalid).
  split.
  - apply Hkey; [reflexivity | discriminate].
  - apply Hvalid. reflexivity.
Defined.

Lemma with_default_variant_stable_witness :
  truthy (AssetMetadata.default_variant
            (with_default_variant (build_metadata a_date body_A1))) = true.
Proof.
  apply (with_default_variant_stable (build_metadata a_date body_A1)).
  reflexivity.
Defined.

(* ===================================================================== *)
(* Further properties of validation and registration                     *)
(* ===================================================================== *)

Lemma validate_not_image (body : RegistrationBody.t) :
  truthy (RegistrationBody.is_image body) = false →
  validateRegistrationBody body
  = if negb (truthy (RegistrationBody.url body))
       && negb (truthy (RegistrationBody.r2_key body))
    then Validation.fail "Either url or r2_key is required"
    else if truthy (RegistrationBody.url body)
            && truthy (RegistrationBody.r2_key body)
    then Validation.fail "Cannot specify both url and r2_key for non-image assets"
    else Validation.ok.
Proof. intros Hi. unfold validateRegistrationBody. by rewrite Hi. Qed.

Lemma truthy_is_image (x : option bool) : truthy x = true ↔ x = Some true.
Proof. destruct x as [[]|]; by split. Qed.

(** X8: acceptance by validation does not depend on the order of the
    entries of the variants mapping: listing them in another order
    leaves the verdict of validateRegistrationBody unchanged (the
    variant named in the error may change: it is the first offending
    one). *)
Theorem validateRegistrationBody_order_irrelevant
    (body : RegistrationBody.t) (vs vs' : Variants) :
  RegistrationBody.variants body = Some vs →
  vs ≡ₚ vs' →
  Validation.valid
    (validateRegistrationBody (RegistrationBody.set_variants (Some vs') body))
  = Validation.valid (validateRegistrationBody body).
Proof.
  intros Hvs Hperm.
  destruct (truthy (RegistrationBody.is_image body)) eqn:Hi.
  - apply truthy_is_image in Hi. apply eq_true_iff_eq.
    rewrite (validate_variants_valid_iff body vs Hi Hvs).
    rewrite (validate_variants_valid_iff
               (RegistrationBody.set_variants (Some vs') body) vs' Hi eq_refl).
    split; intros [Hne Hall]; split.
    + intros ->. apply Permutation_nil_l in Hperm. by subst.
    + intros name v Hin. apply (Hall name v). by rewrite <- Hperm.
    + intros ->. apply Permutation_nil_r in Hperm. by subst.
    + intros name v Hin. apply (Hall name v). by rewrite Hperm.
  - by rewrite !validate_not_image.
Qed.

Lemma validateRegistrationBody_order_irrelevant_witness :
  Validation.valid
    (validateRegistrationBody
       (RegistrationBody.set_variants
          (Some [("medium", variant_no_width); ("original", original_A1)])
          body_no_width))
  = false.
Proof.
  transitivity (Validation.valid (validateRegistrationBody body_no_width));
    [|reflexivity].
  apply (validateRegistrationBody_order_irrelevant body_no_width
           [("original", original_A1); ("medium", variant_no_width)]
           [("medium", variant_no_width); ("original", original_A1)]
           eq_refl).
  apply Permutation_swap.
Defined.








(* A null entry answers 500 when the loop reaches it, also before an entry
   that would be rejected; behind an entry that is rejected it is never
   read. *)
Example null_entry_first :
  handleRegistration_any a_date env_empty "A3"
    (Normal (body_image body_no_width entries_null_first))
  = (env_empty, json_error 500 [("error", "Registration failed")]).
Proof. reflexivity. Qed.

Example null_entry_after_rejected :
  handleRegistration_any a_date env_empty "A3"
    (Normal (body_image body_no_width
               [("thumb", Some variant_no_width); ("medium", None)]))
  = (env_empty,
     json_error 400
       [("error", "Invalid variant 'thumb': must have (r2_key or url) and (width, height, size_bytes)")]).
Proof. reflexivity. Qed.

Example null_body :
  handleRegistration_any a_date env_A1 "A1" (Normal body_null)
  = (env_A1, json_error 500 [("error", "Registration failed")]).
Proof. reflexivity. Qed.

Lemma handleRegistration_archive (now : string) (env : Env.t)
    (assetId : string) (request : completion RegistrationBody.t) :
  Env.ARKE_ARCHIVE (handleRegistration now env assetId request).1
  = Env.ARKE_ARCHIVE env.
Proof.
  unfold handleRegistration. destruct request as [body|]; [|done].
  by destruct (negb _).
Qed.

Lemma handleRegistration_other (now : string) (env : Env.t)
    (assetId other : string) (request : completion RegistrationBody.t) :
  assetId ≠ other →
  Env.ASSET_MAP (handleRegistration now env assetId request).1 !! other
  = Env.ASSET_MAP env !! other.
Proof.
  intros Hne. unfold handleRegistration. destruct request as [body|]; [|done].
  destruct (negb _); [done|]. simpl. by apply lookup_insert_ne.
Qed.

(* handleRetrieval reads the environment through the record of the asset
   and the R2 bucket only. *)
Lemma handleRetrieval_ext (env env' : Env.t) (fetch : Fetch)
    (assetId : string) (path : option string) :
  Env.ASSET_MAP env' !! assetId = Env.ASSET_MAP env !! assetId →
  Env.ARKE_ARCHIVE env' = Env.ARKE_ARCHIVE env →
  handleRetrieval env' fetch assetId path = handleRetrieval env fetch assetId path.
Proof.
  intros Hmap Harch. unfold handleRetrieval, serve_variant, serve_original.
  by rewrite Hmap, Harch.
Qed.

(** X10: registration under one asset id leaves every other asset
    alone: the record stored under another id, the R2 bucket, and the
    response to any retrieval of another id are unchanged, whether the
    registration succeeds or not. *)
Theorem handleRegistration_frame
    (now : string) (env : Env.t) (fetch : Fetch) (assetId other : string)
    (request : completion RegistrationBody.t) (path : option string) :
  assetId ≠ other →
  Env.ASSET_MAP (handleRegistration now env assetId request).1 !! other
  = Env.ASSET_MAP env !! other
  ∧ Env.ARKE_ARCHIVE (handleRegistration now env assetId request).1
    = Env.ARKE_ARCHIVE env
  ∧ handleRetrieval (handleRegistration now env assetId request).1
      fetch other path
    = handleRetrieval env fetch other path.
Proof.
  intros Hne.
  pose proof (handleRegistration_other now env assetId other request Hne).
  pose proof (handleRegistration_archive now env assetId request).
  split; [done|]. split; [done|]. by apply handleRetrieval_ext.
Qed.

Lemma handleRegistration_frame_witness :
  handleRetrieval
    (handleRegistration a_date env_pdf "A1" (Normal body_A1)).1
    fetch_unreachable "D1" (Some "thumb")
  = handleRetrieval env_pdf fetch_unreachable "D1" (Some "thumb").
Proof.
  apply (handleRegistration_frame a_date env_pdf fetch_unreachable "A1" "D1").
  discriminate.
Defined.

(** X11: registration replaces the record wholesale, last write wins: a
    registration that passes validation gives the same environment and
    the same response whatever was registered under the id before, and a
    registration that fails validation leaves the record registered
    before in place. *)
Theorem handleRegistration_last_write_wins
    (now1 now2 : string) (env : Env.t) (assetId : string)
    (earlier : completion RegistrationBody.t) (body : RegistrationBody.t) :
  (Validation.valid (validateRegistrationBody body) = true →
   handleRegistration now2 (handleRegistration now1 env assetId earlier).1
     assetId (Normal body)
   = handleRegistration now2 env assetId (Normal body))
  ∧ (Validation.valid (validateRegistrationBody body) = false →
     (handleRegistration now2 (handleRegistration now1 env assetId earlier).1
        assetId (Normal body)).1
     = (handleRegistration now1 env assetId earlier).1).
Proof.
  split; intros Hv.
  - rewrite !handleRegistration_accepted by done. f_equal.
    unfold handleRegistration. destruct earlier as [first|]; [|done].
    destruct (negb _); [done|]. simpl. unfold Env.put. simpl.
    by rewrite insert_insert_eq.
  - by rewrite handleRegistration_rejected.
Qed.

Lemma handleRegistration_last_write_wins_witness :
  handleRegistration a_date
    (handleRegistration a_date env_empty "A1" (Normal body_banner)).1
    "A1" (Normal body_A1)
  = handleRegistration a_date env_empty "A1" (Normal body_A1)
  ∧ (handleRegistration a_date
       (handleRegistration a_date env_empty "A1" (Normal body_A1)).1
       "A1" (Normal body_no_width)).1
    = (handleRegistration a_date env_empty "A1" (Normal body_A1)).1.
Proof.
  split.
  - apply (handleRegistration_last_write_wins a_date a_date env_empty "A1"
             (Normal body_banner) body_A1). reflexivity.
  - apply (handleRegistration_last_write_wins a_date a_date env_empty "A1"
             (Normal body_A1) body_no_width). reflexivity.
Defined.

Lemma getVariantToServe_entry (m : AssetMetadata.t) (target : VariantName)
    (v : ImageVariant.t) (actual : VariantName) :
  getVariantToServe m target = Normal (Some (v, actual)) →
  ∃ vs, AssetMetadata.variants m = Some vs ∧ get vs actual = Some v.
Proof.
  unfold getVariantToServe.
  destruct (AssetMetadata.variants m) as [vs|]; [|done].
  destruct (fallbackChains target) as [chain|]; [|done].
  intros [= [Hget _]%walk_chain_Some]. by exists vs.
Qed.

Lemma build_metadata_hasVariants_eq (now : string) (body : RegistrationBody.t) :
  hasVariants (build_metadata now body)
  = truthy (RegistrationBody.is_image body)
    && match RegistrationBody.variants body with
       | Some vs => Nat.ltb 0 (length (keys vs))
       | None => false
       end.
Proof.
  unfold hasVariants, build_metadata. simpl.
  rewrite truthy_js_or. by rewrite orb_false_r.
Qed.

(* A body that passes validation and gives a record without variants
   names a storage location. *)
Lemma valid_scalar_location (now : string) (body : RegistrationBody.t) :
  Validation.valid (validateRegistrationBody body) = true →
  hasVariants (build_metadata now body) = false →
  truthy (RegistrationBody.url body) || truthy (RegistrationBody.r2_key body)
  = true.
Proof.
  rewrite build_metadata_hasVariants_eq. unfold validateRegistrationBody.
  destruct (truthy (RegistrationBody.is_image body)); simpl.
  - destruct (RegistrationBody.variants body) as [vs|].
    + destruct (first_invalid_variant vs); [done|].
      destruct vs; simpl; done.
    + by destruct (truthy (RegistrationBody.url body)),
        (truthy (RegistrationBody.r2_key body)).
  - by destruct (truthy (RegistrationBody.url body)),
      (truthy (RegistrationBody.r2_key body)).
Qed.

Lemma if_truthy_Some {A} `{Truthy A} (x : option A) :
  truthy x = true → ∃ a, x = Some a ∧ if_truthy x = Some a.
Proof.
  intros Hx. unfold if_truthy. rewrite Hx.
  destruct x as [a|]; [by exists a | done].
Qed.

Lemma serve_original_responses (env : Env.t) (fetch : Fetch)
    (assetId : string) (m : AssetMetadata.t) :
  serve_original env fetch assetId m ≠ invalid_variant_storage
  ∧ ((AssetMetadata.storage_type m = storage_url
      ∧ truthy (AssetMetadata.url m) = true)
     ∨ (AssetMetadata.storage_type m = storage_r2
        ∧ truthy (AssetMetadata.r2_key m) = true) →
     serve_original env fetch assetId m ≠ missing_storage_configuration).
Proof.
  unfold serve_original, invalid_variant_storage, missing_storage_configuration.
  split.
  - repeat match goal with
           | |- context [match ?x with _ => _ end] => destruct x
           end; discriminate.
  - intros [[-> (u & _ & ->)%if_truthy_Some]|[-> (k & _ & ->)%if_truthy_Some]].
    + destruct (if_truthy (AssetMetadata.r2_key m));
        repeat match goal with
               | |- context [match ?x with _ => _ end] => destruct x
               end; discriminate.
    + repeat match goal with
             | |- context [match ?x with _ => _ end] => destruct x
             end; discriminate.
Qed.

Lemma serve_variant_responses (env : Env.t) (fetch : Fetch)
    (assetId : string) (m : AssetMetadata.t) (v : ImageVariant.t)
    (actual : VariantName) :
  serve_variant env fetch assetId m v actual ≠ missing_storage_configuration
  ∧ (is_Some (getVariantStorage v) →
     serve_variant env fetch assetId m v actual ≠ invalid_variant_storage).
Proof.
  unfold serve_variant, invalid_variant_storage, missing_storage_configuration.
  split.
  - repeat match goal with
           | |- context [match ?x with _ => _ end] => destruct x
           end; discriminate.
  - intros [[st location] ->].
    repeat match goal with
           | |- context [match ?x with _ => _ end] => destruct x
           end; discriminate.
Qed.

(** X12: an asset registered through handleRegistration always has a
    usable storage configuration: whatever the path, retrieving it never
    answers "Invalid variant storage configuration" and never answers
    "Invalid asset metadata: missing storage configuration". *)
Theorem registered_asset_has_storage
    (now : string) (env : Env.t) (fetch : Fetch) (assetId : string)
    (body : RegistrationBody.t) (path : option string) :
  Validation.valid (validateRegistrationBody body) = true →
  handleRetrieval (handleRegistration now env assetId (Normal body)).1
    fetch assetId path ≠ invalid_variant_storage
  ∧ handleRetrieval (handleRegistration now env assetId (Normal body)).1
      fetch assetId path ≠ missing_storage_configuration.
Proof.
  intros Hok.
  set (env' := (handleRegistration now env assetId (Normal body)).1).
  set (m := with_default_variant (build_metadata now body)).
  assert (Hlookup : Env.ASSET_MAP env' !! assetId = Some m)
    by by apply persisted_lookup.
  unfold handleRetrieval. rewrite Hlookup.
  destruct (hasVariants m) eqn:Hhas.
  - destruct (getVariantToServe m _) as [[[v actual]|]|] eqn:Hserve;
      [|split; discriminate..].
    destruct (serve_variant_responses env' fetch assetId m v actual)
      as [Hmissing Hinvalid].
    split; [|done]. apply Hinvalid.
    apply getVariantToServe_entry in Hserve as (vs & Hvs & Hget).
    unfold m in Hhas, Hvs.
    rewrite with_default_variant_hasVariants, build_metadata_hasVariants_eq
      in Hhas.
    rewrite with_default_variant_variants in Hvs. simpl in Hvs.
    apply andb_prop in Hhas as [Hi%truthy_is_image _].
    destruct (proj1 (validate_variants_valid_iff body vs Hi Hvs) Hok)
      as [_ Hall].
    apply get_elem_of, Hall, validateVariant_accepted in Hget.
    unfold getVariantStorage, if_truthy. unfold validateVariant in Hget.
    apply andb_prop in Hget as [Hst _]. rewrite truthy_js_or in Hst.
    destruct (truthy (ImageVariant.r2_key v)) eqn:Ek.
    + by destruct (ImageVariant.r2_key v).
    + simpl in Hst. rewrite Hst. by destruct (ImageVariant.url v).
  - destruct (isValidVariantName _); [split; discriminate|].
    destruct (serve_original_responses env' fetch assetId m)
      as [Hinvalid Hmissing].
    split; [done|]. apply Hmissing.
    unfold m in *. rewrite with_default_variant_hasVariants in Hhas.
    pose proof (valid_scalar_location now body Hok Hhas) as Hloc.
    assert (Hm : with_default_variant (build_metadata now body)
                 = build_metadata now body).
    { unfold with_default_variant. by rewrite Hhas. }
    rewrite Hm. simpl.
    destruct (truthy (RegistrationBody.url body)); [by left | by right].
Qed.

Lemma registered_asset_has_storage_witness :
  handleRetrieval (handleRegistration a_date env_empty "A1" (Normal body_A1)).1
    fetch_unreachable "A1" None ≠ invalid_variant_storage.
Proof.
  apply (registered_asset_has_storage a_date env_empty fetch_unreachable
           "A1" body_A1 None).
  reflexivity.
Defined.

Lemma assignable_spec (name : string) :
  assignable name = true ↔ name ≠ "__proto__".
Proof.
  unfold assignable. destruct (String.eqb_spec name "__proto__"); simpl.
  - split; [done | by intros []].
  - done.
Qed.

Lemma elem_of_filter_assignable (names : list VariantName) (name : string) :
  name ∈ List.filter assignable names ↔ name ∈ names ∧ name ≠ "__proto__".
Proof.
  rewrite !list_elem_of_In, filter_In, assignable_spec. done.
Qed.

Lemma buildVariantUrls_elem (assetId : string) (names : list VariantName)
    (name url : string) :
  (name, url) ∈ buildVariantUrls assetId names
  ↔ name ∈ names ∧ name ≠ "__proto__"
    ∧ url = asset_url assetId +:+ "/" +:+ name.
Proof.
  unfold buildVariantUrls. rewrite list_elem_of_fmap. split.
  - intros (k & [= -> ->] & Hk%elem_of_filter_assignable). tauto.
  - intros (Hk & Hne & ->). exists name. split; [done|].
    by apply elem_of_filter_assignable.
Qed.

Lemma filter_assignable_id (names : list VariantName) :
  "__proto__" ∉ names → List.filter assignable names = names.
Proof.
  induction names as [|k rest IH]; simpl; [done|].
  intros Hno. rewrite not_elem_of_cons in Hno. destruct Hno as [Hk Hrest].
  rewrite (proj2 (assignable_spec k)) by done. by rewrite IH.
Qed.

(** X13: the URLs answered by a registration with variants.  For a body
    with is_image true and a variants mapping that passes validation,
    the 201 response lists one URL, <cdnUrl>/<key>, per key of the
    mapping other than __proto__ (the assignment under that name
    creates no property of the response object), in the order of the
    keys, and no other; when no key is __proto__ the names listed are
    the keys.  Its defaultUrl is <cdnUrl>/<d> for the default variant d
    persisted with the record, so that it is one of the listed URLs
    whenever d is a key of the mapping other than __proto__; sourceUrl
    and r2_key are not part of the response. *)
Theorem registration_response_urls
    (now : string) (env : Env.t) (assetId : string)
    (body : RegistrationBody.t) (vs : Variants) :
  RegistrationBody.is_image body = Some true →
  RegistrationBody.variants body = Some vs →
  Validation.valid (validateRegistrationBody body) = true →
  ∃ r d, (handleRegistration now env assetId (Normal body)).2
         = json_registered 201 r
    ∧ (AssetMetadata.default_variant <$> persisted now env assetId body)
      = Some (Some d)
    ∧ Registered.cdnUrl r = asset_url assetId
    ∧ Registered.defaultUrl r = Some (asset_url assetId +:+ "/" +:+ d)
    ∧ (∃ urls, Registered.variants r = Some urls
         ∧ urls.*1 = List.filter assignable (keys vs)
         ∧ ("__proto__" ∉ keys vs → urls.*1 = keys vs)
         ∧ (∀ name url, (name, url) ∈ urls
              ↔ name ∈ keys vs ∧ name ≠ "__proto__"
                ∧ url = asset_url assetId +:+ "/" +:+ name)
         ∧ (d ∈ keys vs → d ≠ "__proto__" →
            (d, asset_url assetId +:+ "/" +:+ d) ∈ urls))
    ∧ Registered.sourceUrl r = None
    ∧ Registered.r2_key r = None.
Proof.
  intros Hi Hv Hok.
  assert (Hne : vs ≠ []) by by apply (validate_variants_valid_iff body vs Hi Hv).
  pose proof (build_metadata_hasVariants now body vs Hi Hv Hne) as Hhas.
  pose proof (with_default_variant_hasVariants (build_metadata now body)) as Hwh.
  pose proof (with_default_variant_variants (build_metadata now body)) as Hwv.
  rewrite Hhas in Hwh. simpl in Hwv. rewrite Hv in Hwv.
  assert (Hd : ∃ d, AssetMetadata.default_variant
                      (with_default_variant (build_metadata now body)) = Some d).
  { unfold with_default_variant. rewrite Hhas. simpl.
    destruct (RegistrationBody.default_variant body) as [d|] eqn:E.
    - destruct (truthy (Some d)); simpl; [rewrite E|]; eauto.
    - simpl. eauto. }
  destruct Hd as [d Hd].
  eexists _, d. rewrite handleRegistration_accepted by done. simpl.
  split; [reflexivity|].
  unfold persisted. rewrite persisted_lookup by done. simpl. rewrite Hd.
  unfold registration_response. rewrite Hwh, Hwv, Hd. simpl.
  repeat split; try done.
  assert (Hnames : (buildVariantUrls assetId (keys vs)).*1
                   = List.filter assignable (keys vs)).
  { unfold buildVariantUrls. rewrite <- list_fmap_compose.
    by rewrite list_fmap_id. }
  eexists. split; [reflexivity|]. split; [done|]. split; [|split].
  - intros Hno. by rewrite Hnames, filter_assignable_id.
  - intros name url. apply buildVariantUrls_elem.
  - intros Hin Hne'. by apply buildVariantUrls_elem.
Qed.

Lemma registration_response_urls_witness :
  ∃ r, (handleRegistration a_date env_empty "A1" (Normal body_A1)).2
       = json_registered 201 r
    ∧ Registered.defaultUrl r
      = Some "https://cdn.arke.institute/asset/A1/medium".
Proof.
  destruct (registration_response_urls a_date env_empty "A1" body_A1
              variants_A1 eq_refl eq_refl eq_refl)
    as (r & d & Hr & Hd & _ & Hurl & _).
  exists r. split; [exact Hr|].
  vm_compute in Hd. injection Hd as <-. exact Hurl.
Defined.

Lemma build_metadata_without_default (now : string) (body : RegistrationBody.t) :
  build_metadata now (without_default_variant body)
  = AssetMetadata.set_default_variant None (build_metadata now body).
Proof. reflexivity. Qed.

Lemma validate_without_default (body : RegistrationBody.t) :
  validateRegistrationBody (without_default_variant body)
  = validateRegistrationBody body.
Proof. reflexivity. Qed.

(** X14: a default_variant outside the four names is accepted by
    registration and breaks retrieval of the default.  For a body with
    is_image true and a variants mapping that passes validation and
    gives a non-empty default_variant that is not thumb, medium, large
    or original, every later retrieval without a variant selector is
    answered 500 "Internal server error" (the resolver throws on the
    missing chain), while a retrieval that names a variant is answered
    exactly as if the body had given no default_variant. *)
Theorem unrecognized_default_variant
    (now : string) (env : Env.t) (fetch : Fetch) (assetId : string)
    (body : RegistrationBody.t) (vs : Variants) (d : VariantName)
    (path : option string) :
  RegistrationBody.is_image body = Some true →
  RegistrationBody.variants body = Some vs →
  Validation.valid (validateRegistrationBody body) = true →
  RegistrationBody.default_variant body = Some d →
  d ≠ "" →
  d ∉ VARIANT_NAMES →
  (first_path_part path ∉ VARIANT_NAMES →
   handleRetrieval (handleRegistration now env assetId (Normal body)).1
     fetch assetId path = internal_server_error)
  ∧ (first_path_part path ∈ VARIANT_NAMES →
     handleRetrieval (handleRegistration now env assetId (Normal body)).1
       fetch assetId path
     = handleRetrieval
         (handleRegistration now env assetId
            (Normal (without_default_variant body))).1
         fetch assetId path).
Proof.
  intros Hi Hv Hok Hd Hne Hout.
  assert (Hnonempty : vs ≠ [])
    by by apply (validate_variants_valid_iff body vs Hi Hv).
  pose proof (build_metadata_hasVariants now body vs Hi Hv Hnonempty) as Hhas.
  assert (Htruthy : truthy (AssetMetadata.default_variant
                              (build_metadata now body)) = true).
  { simpl. rewrite Hd. apply truthy_populated. by exists d. }
  assert (Hm : with_default_variant (build_metadata now body)
               = build_metadata now body)
    by by apply with_default_variant_explicit.
  unfold handleRetrieval.
  rewrite !persisted_lookup by done. rewrite Hm, Hhas.
  split.
  - intros Hpath%isValidVariantName_not_elem.
    unfold variantToServe. rewrite Hpath.
    assert (Hcalc : calculateDefaultVariant (build_metadata now body) = d).
    { unfold calculateDefaultVariant, if_truthy. rewrite Htruthy. simpl.
      by rewrite Hd. }
    rewrite Hcalc. unfold getVariantToServe. simpl. rewrite Hv.
    destruct (fallbackChains d) as [chain|] eqn:E; [|done].
    exfalso. apply Hout, isValidVariantName_elem, fallbackChains_valid.
    by rewrite E.
  - intros Hpath%isValidVariantName_elem.
    rewrite with_default_variant_hasVariants.
    rewrite build_metadata_without_default.
    change (hasVariants (AssetMetadata.set_default_variant None
                           (build_metadata now body)))
      with (hasVariants (build_metadata now body)).
    rewrite Hhas. unfold variantToServe. rewrite Hpath.
    rewrite with_default_variant_computed by done.
    unfold getVariantToServe, serve_variant.
    rewrite !handleRegistration_archive. reflexivity.
Qed.

Lemma unrecognized_default_variant_witness :
  handleRetrieval
    (handleRegistration a_date env_archive "A6" (Normal body_default_huge)).1
    fetch_unreachable "A6" None
  = internal_server_error.
Proof.
  assert (Hout : "huge" ∉ VARIANT_NAMES)
    by (apply isValidVariantName_not_elem; reflexivity).
  assert (Hpath : first_path_part None ∉ VARIANT_NAMES)
    by (apply isValidVariantName_not_elem; reflexivity).
  apply (proj1 (unrecognized_default_variant a_date env_archive
                  fetch_unreachable "A6" body_default_huge variants_A1 "huge"
                  None eq_refl eq_refl eq_refl eq_refl
                  ltac:(discriminate) Hout)).
  exact Hpath.
Defined.

(* ===================================================================== *)
(* The trailing path of a retrieval                                      *)
(* ===================================================================== *)

Lemma append_String (c : ascii) (s t : string) :
  String c s +:+ t = String c (s +:+ t).
Proof. reflexivity. Qed.

Lemma append_empty_l (t : string) : "" +:+ t = t.
Proof. reflexivity. Qed.

Lemma append_empty_r (s : string) : s +:+ "" = s.
Proof.
  induction s as [|c s IH]; [done|]. by rewrite append_String, IH.
Qed.

Lemma append_cons_assoc (s : string) (c : ascii) (t : string) :
  (s +:+ String c "") +:+ t = s +:+ String c t.
Proof.
  induction s as [|d s IH]; [done|]. by rewrite !append_String, IH.
Qed.

Lemma split_from_segment (seg rest current : string) :
  slash_free seg = true →
  split_from "/" (seg +:+ String "/" rest) current
  = (current +:+ seg) :: split_from "/" rest "".
Proof.
  revert current. induction seg as [|c seg IH]; intros current.
  - intros _. rewrite append_empty_l, append_empty_r. reflexivity.
  - intros [Hc Hseg]%andb_prop. apply negb_true_iff in Hc.
    rewrite append_String. simpl. rewrite Hc.
    rewrite IH by done. by rewrite append_cons_assoc.
Qed.

Lemma split_from_last (seg current : string) :
  slash_free seg = true →
  split_from "/" seg current = [current +:+ seg].
Proof.
  revert current. induction seg as [|c seg IH]; intros current; simpl.
  - intros _. by rewrite append_empty_r.
  - intros [Hc Hseg]%andb_prop. apply negb_true_iff in Hc. rewrite Hc.
    rewrite IH by done. by rewrite append_cons_assoc.
Qed.

Lemma split_from_slash_free (s current : string) :
  slash_free current = true →
  Forall (fun part => slash_free part = true) (split_from "/" s current).
Proof.
  revert current. induction s as [|c s IH]; intros current Hcur; simpl.
  - by constructor.
  - destruct (Ascii.eqb c "/") eqn:Hc.
    + constructor; [done | by apply IH].
    + apply IH. clear IH. induction current as [|d current IH].
      * rewrite append_empty_l. simpl. by rewrite Hc.
      * simpl in Hcur. apply andb_prop in Hcur as [Hd Hcur].
        rewrite append_String. simpl. by rewrite Hd, IH.
Qed.

Lemma first_path_part_Some (s : string) :
  first_path_part (Some s)
  = default "" (head (List.filter truthy (split "/" s))).
Proof.
  unfold first_path_part.
  assert (Htrail : default "" (js_or (Some s) (Some "")) = s).
  { unfold js_or. cbv [truthy truthy_optional truthy_string].
    by destruct (String.eqb_spec s "") as [->|]. }
  rewrite Htrail.
  destruct (List.filter truthy (split "/" s)) as [|p parts] eqn:E; [done|].
  assert (Hp : truthy p = true).
  { assert (Hin : In p (List.filter truthy (split "/" s)))
      by (rewrite E; by left).
    by apply filter_In in Hin as [_ Hp]. }
  simpl. unfold js_or.
  change (truthy (Some p)) with (truthy p). by rewrite Hp.
Qed.

Lemma truthy_nonempty (s : string) : truthy s = true ↔ s ≠ "".
Proof.
  cbv [truthy truthy_string]. destruct (String.eqb_spec s ""); by split.
Qed.

(** X15: the variant selector is the first non-empty segment of the
    trailing path.  For a non-empty segment without a slash,
    first_path_part returns it whether it stands alone or is followed by
    a slash and anything else (a vanity filename), and leading slashes
    are skipped; a missing or empty path gives the empty string; the
    result never contains a slash.  So handleRetrieval answers
    /asset/id/seg/anything exactly as /asset/id/seg. *)
Theorem first_path_part_segment
    (env : Env.t) (fetch : Fetch) (assetId : string) (seg rest : string) :
  seg ≠ "" →
  slash_free seg = true →
  first_path_part (Some seg) = seg
  ∧ first_path_part (Some (seg +:+ "/" +:+ rest)) = seg
  ∧ (∀ p, first_path_part (Some ("/" +:+ p)) = first_path_part (Some p))
  ∧ first_path_part None = ""
  ∧ first_path_part (Some "") = ""
  ∧ (∀ path, slash_free (first_path_part path) = true)
  ∧ handleRetrieval env fetch assetId (Some (seg +:+ "/" +:+ rest))
    = handleRetrieval env fetch assetId (Some seg).
Proof.
  intros Hne Hfree. apply truthy_nonempty in Hne.
  assert (H1 : first_path_part (Some seg) = seg).
  { rewrite first_path_part_Some. unfold split.
    rewrite split_from_last, append_empty_l by done. simpl. by rewrite Hne. }
  assert (H2 : first_path_part (Some (seg +:+ "/" +:+ rest)) = seg).
  { rewrite first_path_part_Some. unfold split.
    change (seg +:+ "/" +:+ rest) with (seg +:+ String "/" rest).
    rewrite split_from_segment, append_empty_l by done. simpl.
    by rewrite Hne. }
  split; [done|]. split; [done|]. split; [|split; [|split; [|split]]].
  - intros p. by rewrite !first_path_part_Some.
  - reflexivity.
  - reflexivity.
  - intros [s|]; [|done]. rewrite first_path_part_Some.
    pose proof (split_from_slash_free s "" eq_refl) as Hall.
    unfold split.
    induction Hall as [|part parts Hpart _ IH]; simpl; [done|].
    destruct (truthy part); [done | exact IH].
  - unfold handleRetrieval. by rewrite H1, H2.
Qed.

Lemma first_path_part_segment_witness :
  first_path_part (Some "medium/photo.jpg") = "medium"
  ∧ handleRetrieval env_A1 fetch_unreachable "A1" (Some "medium/photo.jpg")
    = handleRetrieval env_A1 fetch_unreachable "A1" (Some "medium").
Proof.
  destruct (first_path_part_segment env_A1 fetch_unreachable "A1"
              "medium" "photo.jpg" ltac:(discriminate) eq_refl)
    as (_ & Hseg & _ & _ & _ & _ & Hget).
  split; [exact Hseg | exact Hget].
Defined.

(* ===================================================================== *)
(* What a streamed response announces and carries                        *)
(* ===================================================================== *)

Lemma buildAssetHeaders_lookup (contentType : string)
    (contentLength : option Z) (assetId : string)
    (actualVariant : option VariantName)
    (variantDimensions originalDimensions : option Dimensions) :
  let headers := buildAssetHeaders contentType contentLength assetId
                   actualVariant variantDimensions originalDimensions in
  header headers "Content-Type" = Some contentType
  ∧ header headers "Cache-Control" = Some CACHE_CONTROL
  ∧ header headers "X-Asset-Id" = Some assetId
  ∧ header headers "Content-Length"
    = (if truthy contentLength
       then Some (template_number contentLength) else None)
  ∧ header headers "X-Variant-Dimensions"
    = template_dimensions <$> variantDimensions
  ∧ header headers "X-Original-Dimensions"
    = template_dimensions <$> originalDimensions
  ∧ NoDup headers.*1.
Proof.
  unfold buildAssetHeaders.
  destruct (truthy contentLength), (truthy actualVariant),
    variantDimensions, originalDimensions; simpl;
    repeat split; apply (bool_decide_unpack _); vm_compute; exact I.
Qed.

(* A streamed answer of the variant branch is the answer of
   serve_variant for the variant the resolver chose. *)
Lemma handleRetrieval_streamed_variant (env : Env.t) (fetch : Fetch)
    (assetId : string) (path : option string) (m : AssetMetadata.t)
    (b : option Body) (h : Headers) :
  Env.ASSET_MAP env !! assetId = Some m →
  hasVariants m = true →
  handleRetrieval env fetch assetId path = new_Response b h →
  ∃ v actual,
    getVariantToServe m (variantToServe m (first_path_part path))
    = Normal (Some (v, actual))
    ∧ serve_variant env fetch assetId m v actual = new_Response b h.
Proof.
  intros Hget Hhas. unfold handleRetrieval. rewrite Hget, Hhas.
  destruct (getVariantToServe m _) as [[[v actual]|]|]; try done.
  intros H. by exists v, actual.
Qed.

Lemma serve_variant_streamed (env : Env.t) (fetch : Fetch)
    (assetId : string) (m : AssetMetadata.t) (v : ImageVariant.t)
    (actual : VariantName) (b : option Body) (h : Headers) :
  serve_variant env fetch assetId m v actual = new_Response b h →
  (∃ contentType originalDimensions,
      h = buildAssetHeaders contentType (ImageVariant.size_bytes v) assetId
            (Some actual)
            (Some (ImageVariant.width v, ImageVariant.height v))
            originalDimensions)
  ∧ ((∃ key r2Object, getVariantStorage v = Some (storage_r2, key)
        ∧ Env.ARKE_ARCHIVE env !! key = Some r2Object
        ∧ b = Some (R2Object.body r2Object))
     ∨ (∃ location response,
          getVariantStorage v = Some (storage_url, location)
          ∧ fetch location = Normal response
          ∧ FetchResponse.ok response = true
          ∧ b = FetchResponse.body response)).
Proof.
  unfold serve_variant.
  destruct (getVariantStorage v) as [[[] location]|]; [| |done].
  - destruct (fetch location) as [response|] eqn:Ef; [|done].
    destruct (FetchResponse.ok response) eqn:Eok; [|done].
    intros [= <- <-]. split; [by eauto|]. right. by exists location, response.
  - destruct (Env.ARKE_ARCHIVE env !! location) as [r2Object|] eqn:Er; [|done].
    intros [= <- <-]. split; [by eauto|]. left. by exists location, r2Object.
Qed.

Lemma serve_original_streamed (env : Env.t) (fetch : Fetch)
    (assetId : string) (m : AssetMetadata.t) (b : option Body) (h : Headers) :
  serve_original env fetch assetId m = new_Response b h →
  ∃ contentType contentLength,
    h = buildAssetHeaders contentType contentLength assetId None None None.
Proof.
  unfold serve_original.
  destruct (AssetMetadata.storage_type m).
  - destruct (if_truthy (AssetMetadata.r2_key m)),
      (if_truthy (AssetMetadata.url m)) as [location|]; try done;
      (destruct (fetch location) as [response|]; [|done];
       destruct (FetchResponse.ok response); [|done];
       intros [= _ <-]; by eauto).
  - destruct (if_truthy (AssetMetadata.r2_key m)) as [key|]; [|done].
    destruct (Env.ARKE_ARCHIVE env !! key); [|done].
    intros [= _ <-]. by eauto.
Qed.

(** X16: the headers of every streamed response.  Whenever
    handleRetrieval streams an object, the response has a Content-Type,
    Cache-Control "public, max-age=31536000, immutable" and X-Asset-Id
    equal to the asset id, and no header name occurs twice.  For a
    variant-bearing record it also has X-Variant, one of the four names
    and a key of the record's mapping, X-Variant-Dimensions built from
    the width and height of that entry, and Content-Length exactly when
    the entry's size_bytes is not zero; for any other record it has no
    X-Variant, X-Variant-Dimensions or X-Original-Dimensions. *)
Theorem streamed_response_headers
    (env : Env.t) (fetch : Fetch) (assetId : string) (path : option string)
    (b : option Body) (h : Headers) :
  handleRetrieval env fetch assetId path = new_Response b h →
  ∃ m, Env.ASSET_MAP env !! assetId = Some m
    ∧ is_Some (header h "Content-Type")
    ∧ header h "Cache-Control" = Some "public, max-age=31536000, immutable"
    ∧ header h "X-Asset-Id" = Some assetId
    ∧ NoDup h.*1
    ∧ (hasVariants m = true →
       ∃ vs actual v, AssetMetadata.variants m = Some vs
         ∧ get vs actual = Some v
         ∧ actual ∈ VARIANT_NAMES
         ∧ header h "X-Variant" = Some actual
         ∧ header h "X-Variant-Dimensions"
           = Some (template_number (ImageVariant.width v) +:+ "x"
                   +:+ template_number (ImageVariant.height v))
         ∧ header h "Content-Length"
           = (if truthy (ImageVariant.size_bytes v)
              then Some (template_number (ImageVariant.size_bytes v))
              else None))
    ∧ (hasVariants m = false →
       header h "X-Variant" = None
       ∧ header h "X-Variant-Dimensions" = None
       ∧ header h "X-Original-Dimensions" = None).
Proof.
  intros Hresp.
  destruct (Env.ASSET_MAP env !! assetId) as [m|] eqn:Hget;
    [|unfold handleRetrieval in Hresp; by rewrite Hget in Hresp].
  exists m. split; [done|].
  destruct (hasVariants m) eqn:Hhas.
  - destruct (handleRetrieval_streamed_variant env fetch assetId path m b h
                Hget Hhas Hresp) as (v & actual & Hserve & Hsv).
    pose proof (getVariantToServe_recognized _ _ _ _ Hserve) as Hrec.
    apply getVariantToServe_entry in Hserve as (vs & Hvs & Hv).
    pose proof (serve_variant_X_Variant _ _ _ _ _ _ _ _ Hsv) as Hx.
    rewrite truthy_recognized in Hx by done.
    apply serve_variant_streamed in Hsv as [(ct & od & ->) _].
    destruct (buildAssetHeaders_lookup ct (ImageVariant.size_bytes v) assetId
                (Some actual)
                (Some (ImageVariant.width v, ImageVariant.height v)) od)
      as (Hct & Hcc & Hid & Hcl & Hvd & _ & Hnd).
    split; [by rewrite Hct|]. split; [done|]. split; [done|]. split; [done|].
    split; [|done]. intros _. by exists vs, actual, v.
  - rewrite (handleRetrieval_scalar env fetch assetId path m Hget Hhas) in Hresp.
    destruct (isValidVariantName _); [done|].
    apply serve_original_streamed in Hresp as (ct & cl & ->).
    destruct (buildAssetHeaders_lookup ct cl assetId None None None)
      as (Hct & Hcc & Hid & _ & Hvd & Hod & Hnd).
    pose proof (buildAssetHeaders_X_Variant ct cl assetId None None None) as Hx.
    split; [by rewrite Hct|]. split; [done|]. split; [done|]. split; [done|].
    split; [done|]. intros _. by repeat split.
Qed.

Lemma streamed_response_headers_witness :
  ∃ b h, handleRetrieval env_A1 fetch_unreachable "A1" (Some "thumb")
         = new_Response b h
    ∧ header h "X-Asset-Id" = Some "A1"
    ∧ header h "Cache-Control" = Some "public, max-age=31536000, immutable".
Proof.
  eexists _, _. split; [vm_compute; reflexivity|].
  destruct (streamed_response_headers env_A1 fetch_unreachable "A1"
              (Some "thumb") _ _ eq_refl)
    as (m & _ & _ & Hcc & Hid & _).
  split; [exact Hid | exact Hcc].
Defined.

(* Numbers are printed as JavaScript prints them. *)
Example Number_toString_samples :
  Number_toString 1024 = "1024"
  ∧ Number_toString (-5) = "-5"
  ∧ Number_toString (2 ^ 53 + 1) = "9007199254740992"
  ∧ Number_toString (2 ^ 64) = "18446744073709552000"
  ∧ Number_toString (10 ^ 21 - 1) = "1e+21"
  ∧ Number_toString (10 ^ 21) = "1e+21"
  ∧ Number_toString (2 ^ 70) = "1.1805916207174113e+21".
Proof. vm_compute. repeat split. Qed.

Example content_length_exponent_form :
  header
    (buildAssetHeaders "image/jpeg" (Some (10 ^ 21)%Z) "A1" (Some "large")
       (Some (Some 2400%Z, Some (10 ^ 22)%Z)) None)
    "Content-Length" = Some "1e+21"
  ∧ header
      (buildAssetHeaders "image/jpeg" (Some (10 ^ 21)%Z) "A1" (Some "large")
         (Some (Some 2400%Z, Some (10 ^ 22)%Z)) None)
      "X-Variant-Dimensions" = Some "2400x1e+22".
Proof. vm_compute. split; reflexivity. Qed.

(** X17: a variant-bearing record is answered with the bytes of the
    variant it announces.  When handleRetrieval streams an object for a
    variant-bearing record, the X-Variant header names an entry of the
    record's mapping, and the body is the object stored in the R2 bucket
    under that entry's r2_key when the entry has a non-empty r2_key, and
    otherwise the body of a successful fetch of that entry's url. *)
Theorem streamed_variant_bytes
    (env : Env.t) (fetch : Fetch) (assetId : string) (path : option string)
    (m : AssetMetadata.t) (b : option Body) (h : Headers) :
  Env.ASSET_MAP env !! assetId = Some m →
  hasVariants m = true →
  handleRetrieval env fetch assetId path = new_Response b h →
  ∃ vs actual v, AssetMetadata.variants m = Some vs
    ∧ get vs actual = Some v
    ∧ header h "X-Variant" = Some actual
    ∧ ((∃ key r2Object, ImageVariant.r2_key v = Some key ∧ key ≠ ""
          ∧ Env.ARKE_ARCHIVE env !! key = Some r2Object
          ∧ b = Some (R2Object.body r2Object))
       ∨ (∃ location response, ¬ populated (ImageVariant.r2_key v)
            ∧ ImageVariant.url v = Some location ∧ location ≠ ""
            ∧ fetch location = Normal response
            ∧ FetchResponse.ok response = true
            ∧ b = FetchResponse.body response)).
Proof.
  intros Hget Hhas Hresp.
  destruct (handleRetrieval_streamed_variant env fetch assetId path m b h
              Hget Hhas Hresp) as (v & actual & Hserve & Hsv).
  pose proof (getVariantToServe_recognized _ _ _ _ Hserve) as Hrec.
  apply getVariantToServe_entry in Hserve as (vs & Hvs & Hv).
  pose proof (serve_variant_X_Variant _ _ _ _ _ _ _ _ Hsv) as Hx.
  rewrite truthy_recognized in Hx by done.
  exists vs, actual, v. split; [done|]. split; [done|]. split; [done|].
  apply serve_variant_streamed in Hsv as [_ Hbytes].
  unfold getVariantStorage, if_truthy in Hbytes.
  destruct (truthy (ImageVariant.r2_key v)) eqn:Ek.
  - apply truthy_populated in Ek as (key & Hk & Hne). rewrite Hk in Hbytes.
    destruct Hbytes as [(k & o & [= <-] & Ho & ->)|(l & r & [=] & _)].
    left. by exists key, o.
  - apply truthy_not_populated in Ek.
    destruct (truthy (ImageVariant.url v)) eqn:Eu.
    + apply truthy_populated in Eu as (location & Hu & Hne).
      rewrite Hu in Hbytes.
      destruct Hbytes as [(k & o & [=] & _)|(l & r & [= <-] & Hf & Hok & ->)].
      right. by exists location, r.
    + destruct Hbytes as [(k & o & [=] & _)|(l & r & [=] & _)].
Qed.

Lemma streamed_variant_bytes_witness :
  ∃ b h, handleRetrieval env_A1 fetch_unreachable "A1" (Some "thumb")
         = new_Response b h
    ∧ header h "X-Variant" = Some "medium"
    ∧ b = Some "medium bytes".
Proof.
  eexists _, _. split; [vm_compute; reflexivity|].
  destruct (streamed_variant_bytes env_A1 fetch_unreachable "A1"
              (Some "thumb")
              (with_default_variant (build_metadata a_date body_A1)) _ _
              ltac:(vm_compute; reflexivity) eq_refl eq_refl)
    as (vs & actual & v & _ & _ & _ & _).
  split; reflexivity.
Defined.

(* ===================================================================== *)
(* Registration and retrieval of an asset without variants               *)
(* ===================================================================== *)

Lemma build_metadata_scalar (now : string) (body : RegistrationBody.t) :
  hasVariants (build_metadata now body) = false →
  with_default_variant (build_metadata now body) = build_metadata now body.
Proof. intros H. unfold with_default_variant. by rewrite H. Qed.

(** X18: an asset registered without variants is served from the
    location it was registered with.  After a registration that passes
    validation and gives a record that is not variant-bearing, a
    retrieval whose first path token is not a variant name goes to the
    URL of the body when url is non-empty (also when r2_key is given
    too): it streams the body of a successful fetch, answers 503 when
    the fetch is not ok and 500 when it fails; otherwise it goes to the
    R2 object under r2_key: it streams that object, or answers 404 when
    the bucket has none. *)
Theorem registered_scalar_round_trip
    (now : string) (env : Env.t) (fetch : Fetch) (assetId : string)
    (body : RegistrationBody.t) (path : option string) :
  Validation.valid (validateRegistrationBody body) = true →
  hasVariants (build_metadata now body) = false →
  first_path_part path ∉ VARIANT_NAMES →
  let response :=
    handleRetrieval (handleRegistration now env assetId (Normal body)).1
      fetch assetId path in
  (∀ location, RegistrationBody.url body = Some location → location ≠ "" →
     match fetch location with
     | Thrown => response = internal_server_error
     | Normal upstream =>
       if FetchResponse.ok upstream
       then ∃ h, response = new_Response (FetchResponse.body upstream) h
       else response
            = json_error 503 [("error", "Failed to fetch asset from storage")]
     end)
  ∧ (¬ populated (RegistrationBody.url body) →
     ∃ key, RegistrationBody.r2_key body = Some key ∧ key ≠ ""
       ∧ match Env.ARKE_ARCHIVE env !! key with
         | None => response
                   = json_error 404 [("error", "Asset not found in R2 storage")]
         | Some r2Object =>
           ∃ h, response = new_Response (Some (R2Object.body r2Object)) h
         end).
Proof.
  intros Hok Hscalar Hpath response.
  assert (Hresp : response
                  = serve_original
                      (handleRegistration now env assetId (Normal body)).1
                      fetch assetId (build_metadata now body)).
  { unfold response.
    rewrite (handleRetrieval_scalar _ fetch assetId path
               (build_metadata now body)).
    - by rewrite (proj2 (isValidVariantName_not_elem _) Hpath).
    - rewrite persisted_lookup by done. by rewrite build_metadata_scalar.
    - done. }
  pose proof (valid_scalar_location now body Hok Hscalar) as Hloc.
  rewrite Hresp. unfold serve_original.
  rewrite handleRegistration_archive. simpl. split.
  - intros location Hu Hne.
    assert (Ht : truthy (RegistrationBody.url body) = true)
      by (apply truthy_populated; by exists location).
    unfold if_truthy. rewrite Ht, Hu.
    destruct (truthy (RegistrationBody.r2_key body));
      destruct (RegistrationBody.r2_key body);
      (destruct (fetch location) as [upstream|]; [|done]);
      (destruct (FetchResponse.ok upstream); simpl; by eauto).
  - intros Hu%truthy_not_populated. rewrite Hu in Hloc. simpl in Hloc.
    apply truthy_populated in Hloc as Hpop. destruct Hpop as (key & Hk & Hne).
    exists key. split; [done|]. split; [done|].
    unfold if_truthy. rewrite Hu, Hloc, Hk.
    destruct (Env.ARKE_ARCHIVE env !! key); by eauto.
Qed.

Lemma registered_scalar_round_trip_witness :
  ∃ h, handleRetrieval
         (handleRegistration a_date env_empty "P1" (Normal body_page)).1
         fetch_page "P1" (Some "index.html")
       = new_Response (Some "page bytes") h.
Proof.
  assert (Hpath : first_path_part (Some "index.html") ∉ VARIANT_NAMES)
    by (apply isValidVariantName_not_elem; reflexivity).
  destruct (registered_scalar_round_trip a_date env_empty fetch_page "P1"
              body_page (Some "index.html") eq_refl eq_refl Hpath)
    as [Hurl _].
  exact (Hurl "https://origin.example/page" eq_refl ltac:(discriminate)).
Defined.

(* ===================================================================== *)
(* The earlier workers and the present one                               *)
(* ===================================================================== *)

Lemma buildAssetHeaders_inline (contentType : string)
    (contentLength : option Z) (assetId : string) :
  buildAssetHeaders contentType contentLength assetId None None None
  = inline_headers contentType contentLength assetId.
Proof.
  unfold buildAssetHeaders, inline_headers. simpl.
  by rewrite !app_nil_r.
Qed.

Lemma serve_original_legacy (env : Env.t) (fetch : Fetch) (assetId : string)
    (m : AssetMetadata.t) :
  Env.ASSET_MAP env !! assetId = Some m →
  serve_original env fetch assetId m = LegacyR2.get_asset env fetch assetId.
Proof.
  intros Hget.
  unfold serve_original, LegacyR2.get_asset, DEFAULT_CONTENT_TYPE.
  rewrite Hget.
  destruct (AssetMetadata.storage_type m).
  - destruct (if_truthy (AssetMetadata.r2_key m)),
      (if_truthy (AssetMetadata.url m)) as [location|]; try done;
      (destruct (fetch location) as [response|]; [|done];
       destruct (FetchResponse.ok response); [|done]; simpl;
       by rewrite buildAssetHeaders_inline).
  - destruct (if_truthy (AssetMetadata.r2_key m)) as [key|]; [|done].
    destruct (Env.ARKE_ARCHIVE env !! key) as [r2Object|]; [|done].
    by rewrite buildAssetHeaders_inline.
Qed.

(** X19: retrieval is backward compatible with the earlier worker on
    assets without variants, except for variant names in the path.  For
    a stored record that is not variant-bearing, whatever the bucket
    holds and the origin answers, handleRetrieval with a path whose
    first token is not a variant name (or with no path) answers exactly
    what the GET handlers of the earlier worker answer, status, body and
    headers.  With thumb, medium, large or original as first token it
    answers 400, where the earlier worker ignored the path. *)
Theorem handleRetrieval_backward_compatible
    (env : Env.t) (fetch : Fetch) (assetId : string) (path : option string)
    (m : AssetMetadata.t) :
  Env.ASSET_MAP env !! assetId = Some m →
  hasVariants m = false →
  (first_path_part path ∉ VARIANT_NAMES →
   handleRetrieval env fetch assetId path
   = LegacyR2.get_asset env fetch assetId)
  ∧ (first_path_part path ∈ VARIANT_NAMES →
     handleRetrieval env fetch assetId path = variants_not_available assetId
     ∧ LegacyR2.get_asset env fetch assetId ≠ variants_not_available assetId).
Proof.
  intros Hget Hscalar.
  rewrite (handleRetrieval_scalar env fetch assetId path m Hget Hscalar).
  split.
  - intros Hpath%isValidVariantName_not_elem. rewrite Hpath.
    by apply serve_original_legacy.
  - intros Hpath%isValidVariantName_elem. rewrite Hpath. split; [done|].
    unfold LegacyR2.get_asset, variants_not_available. rewrite Hget.
    repeat match goal with
           | |- context [match ?x with _ => _ end] => destruct x
           end; discriminate.
Qed.

Lemma handleRetrieval_backward_compatible_witness :
  handleRetrieval env_page fetch_empty_type "P1" (Some "page.html")
  = LegacyR2.get_asset env_page fetch_empty_type "P1"
  ∧ handleRetrieval env_pdf fetch_page "D1" (Some "thumb")
    = variants_not_available "D1".
Proof.
  destruct (handleRetrieval_backward_compatible env_page fetch_empty_type "P1"
              (Some "page.html") record_page
              ltac:(vm_compute; reflexivity) eq_refl) as [Hsame _].
  destruct (handleRetrieval_backward_compatible env_pdf fetch_page "D1"
              (Some "thumb") record_pdf
              ltac:(vm_compute; reflexivity) eq_refl) as [_ Htoken].
  split.
  - apply Hsame. apply isValidVariantName_not_elem. reflexivity.
  - apply Htoken. apply isValidVariantName_elem. reflexivity.
Defined.

(* An empty Content-Type from the origin is falsy: the default is sent. *)
Example empty_upstream_content_type :
  ∃ h, handleRetrieval env_page fetch_empty_type "P1" None
       = new_Response (Some "page bytes") h
    ∧ header h "Content-Type" = Some "application/octet-stream"
    ∧ header h "Content-Length" = Some "1024".
Proof. eexists. split; [vm_compute; reflexivity|]. split; reflexivity. Qed.

Lemma LegacyR2_post_asset_archive (now : string) (env : Env.t)
    (assetId : string) (request : completion RegistrationBody.t) :
  Env.ARKE_ARCHIVE (LegacyR2.post_asset now env assetId request).1
  = Env.ARKE_ARCHIVE env.
Proof.
  unfold LegacyR2.post_asset. destruct request as [body|]; [|done].
  by repeat match goal with
            | |- context [if ?b then _ else _] => destruct b
            end.
Qed.

(** X20: registration is backward compatible with the earlier worker on
    bodies that are not images.  For a body whose is_image is false or
    absent, handleRegistration and the POST handler of the earlier
    worker answer with the same status, and with the same response when
    that is 201; when it is not, neither stores anything.  The records
    the two store are read alike: every retrieval of the asset by the
    present worker, and by the GET handler of the earlier one, gives the
    same response after either registration. *)
Theorem handleRegistration_backward_compatible
    (now : string) (env : Env.t) (fetch : Fetch) (assetId : string)
    (body : RegistrationBody.t) (path : option string) :
  truthy (RegistrationBody.is_image body) = false →
  let present := handleRegistration now env assetId (Normal body) in
  let earlier := LegacyR2.post_asset now env assetId (Normal body) in
  status_of present.2 = status_of earlier.2
  ∧ (status_of earlier.2 = Some 201%Z → present.2 = earlier.2)
  ∧ (status_of earlier.2 ≠ Some 201%Z → present.1 = env ∧ earlier.1 = env)
  ∧ handleRetrieval present.1 fetch assetId path
    = handleRetrieval earlier.1 fetch assetId path
  ∧ LegacyR2.get_asset present.1 fetch assetId
    = LegacyR2.get_asset earlier.1 fetch assetId.
Proof.
  intros Hi present earlier.
  assert (Hhas : hasVariants (build_metadata now body) = false).
  { rewrite build_metadata_hasVariants_eq. by rewrite Hi. }
  unfold present, earlier, handleRegistration, LegacyR2.post_asset.
  rewrite validate_not_image by done.
  destruct (truthy (RegistrationBody.url body)) eqn:Hu,
    (truthy (RegistrationBody.r2_key body)) eqn:Hk; simpl;
    try (repeat split; done).
  - (* a URL *)
    rewrite build_metadata_scalar by done.
    unfold registration_response. rewrite Hhas. simpl. rewrite Hu.
    split; [done|]. split; [done|]. split; [done|]. split.
    + unfold handleRetrieval. simpl. rewrite !lookup_insert_eq.
      rewrite Hhas. reflexivity.
    + unfold LegacyR2.get_asset. simpl. rewrite !lookup_insert_eq.
      simpl. by rewrite Hu.
  - (* an R2 key *)
    rewrite build_metadata_scalar by done.
    unfold registration_response. rewrite Hhas. simpl. rewrite Hu.
    split; [done|]. split; [done|]. split; [done|]. split.
    + unfold handleRetrieval. simpl. rewrite !lookup_insert_eq.
      rewrite Hhas. reflexivity.
    + unfold LegacyR2.get_asset. simpl. rewrite !lookup_insert_eq.
      simpl. by rewrite Hu.
Qed.

Lemma handleRegistration_backward_compatible_witness :
  (handleRegistration a_date env_empty "P1" (Normal body_page)).2
  = (LegacyR2.post_asset a_date env_empty "P1" (Normal body_page)).2
  ∧ handleRetrieval
      (handleRegistration a_date env_empty "P1" (Normal body_page)).1
      fetch_page "P1" None
    = handleRetrieval
        (LegacyR2.post_asset a_date env_empty "P1" (Normal body_page)).1
        fetch_page "P1" None.
Proof.
  pose proof (handleRegistration_backward_compatible a_date env_empty
                fetch_page "P1" body_page None eq_refl) as H.
  cbv zeta in H. destruct H as (_ & Hresp & _ & Hget & _).
  split; [apply Hresp; reflexivity | exact Hget].
Defined.

(** X21: the two earlier workers agree on assets stored by URL.  For a
    body with a non-empty url and no r2_key, the POST handlers of the
    first worker and of the worker with R2 support both answer 201 with
    the same assetId, cdnUrl and sourceUrl, and after either
    registration the GET handler of the same worker gives the same
    response.  A body without a non-empty url is rejected by the first
    worker with 400 "URL is required", and nothing is stored. *)
Theorem legacy_workers_agree_on_urls
    (now : string) (kv : gmap string LegacyUrl.AssetMetadata.t) (env : Env.t)
    (fetch : Fetch) (assetId : string) (body : RegistrationBody.t) :
  (∀ location, RegistrationBody.url body = Some location → location ≠ "" →
     ¬ populated (RegistrationBody.r2_key body) →
     (LegacyUrl.post_asset now kv assetId (Normal body)).2
     = LegacyUrl.post_created 201 assetId (asset_url assetId) location
     ∧ (∃ r, (LegacyR2.post_asset now env assetId (Normal body)).2
             = json_registered 201 r
          ∧ Registered.assetId r = assetId
          ∧ Registered.cdnUrl r = asset_url assetId
          ∧ Registered.sourceUrl r = Some location
          ∧ Registered.storage_type r = storage_url)
     ∧ LegacyUrl.get_asset
         (LegacyUrl.post_asset now kv assetId (Normal body)).1 fetch assetId
       = LegacyR2.get_asset
           (LegacyR2.post_asset now env assetId (Normal body)).1 fetch assetId)
  ∧ (¬ populated (RegistrationBody.url body) →
     LegacyUrl.post_asset now kv assetId (Normal body)
     = (kv, LegacyUrl.post_error 400 [("error", "URL is required")])).
Proof.
  split.
  - intros location Hu Hne Hk%truthy_not_populated.
    assert (Ht : truthy (RegistrationBody.url body) = true)
      by (apply truthy_populated; by exists location).
    unfold LegacyUrl.post_asset, LegacyR2.post_asset, LegacyR2.build_metadata,
      if_truthy.
    rewrite Hk, Hu. rewrite Hu in Ht. rewrite Ht. simpl. split; [done|]. split.
    + eexists. split; [reflexivity|]. done.
    + unfold LegacyUrl.get_asset, LegacyR2.get_asset. simpl.
      rewrite !lookup_insert_eq. simpl.
      unfold if_truthy. rewrite Ht.
      by destruct (truthy (RegistrationBody.r2_key body)),
        (RegistrationBody.r2_key body).
  - intros Hu%truthy_not_populated.
    unfold LegacyUrl.post_asset, if_truthy. by rewrite Hu.
Qed.

Lemma legacy_workers_agree_on_urls_witness :
  LegacyUrl.get_asset
    (LegacyUrl.post_asset a_date ∅ "P1" (Normal body_page)).1 fetch_page "P1"
  = LegacyR2.get_asset
      (LegacyR2.post_asset a_date env_empty "P1" (Normal body_page)).1
      fetch_page "P1".
Proof.
  destruct (legacy_workers_agree_on_urls a_date ∅ env_empty fetch_page "P1"
              body_page) as [Hurl _].
  apply (Hurl "https://origin.example/page" eq_refl).
  - discriminate.
  - intros (s & [=] & _).
Defined.
